(** * GamelistDB: the metadata store of EmulationStation

    A shallow embedding of [es-app/src/GamelistDB.cpp]: the path
    normaliser, the two RAII wrappers around the SQLite handle, the
    recursive scanner, the existence refresher, the point reads and writes
    and the gamelist importer, followed by the properties the specification
    states about them. *)

From Stdlib Require Import String Ascii List ZArith Bool Arith Lia.
From Stdlib Require Import DecimalString.
Import ListNotations.

Open Scope list_scope.
Open Scope string_scope.

Set Implicit Arguments.

(** ** Strings and paths *)

(** [fs::path] and [std::string] are both strings here; a path is kept in
    its generic (forward slash) spelling, so [generic_string] has nothing
    left to do. *)
Definition path := string.

Definition generic_string (p : path) : string := p.

(** [strip_prefix pre s] is what is left of [s] after [pre], when [s]
    starts with [pre]. *)
Fixpoint strip_prefix (pre s : string) : option string :=
  match pre with
  | EmptyString => Some s
  | String a pre' =>
      match s with
      | String b s' => if Ascii.eqb a b then strip_prefix pre' s' else None
      | EmptyString => None
      end
  end.

(** The remainder of a path after a directory prefix sits at a component
    boundary when it is empty or begins with the separator. *)
Definition at_boundary (rest : string) : bool :=
  match rest with
  | EmptyString => true
  | String c _ => Ascii.eqb c "/"
  end.

Fixpoint ends_with_slash (s : string) : bool :=
  match s with
  | EmptyString => false
  | String c EmptyString => Ascii.eqb c "/"
  | String _ s' => ends_with_slash s'
  end.

(** [operator/] of [fs::path]: a separator is put between the two parts
    unless the left one is empty or already ends with one. *)
Definition path_append (p : path) (name : string) : path :=
  match p with
  | EmptyString => name
  | _ => if ends_with_slash p then p ++ name else p ++ "/" ++ name
  end.

(** [std::string::rfind('.')]: the suffix of [s] that starts at its last
    dot, when there is one. *)
Fixpoint from_last_dot (s : string) : option string :=
  match s with
  | EmptyString => None
  | String c s' =>
      match from_last_dot s' with
      | Some suffix => Some suffix
      | None => if Ascii.eqb c "." then Some s else None
      end
  end.

(** [fs::path::extension] applied to a file name: empty for the two dot
    entries and for a name without a dot, otherwise the part from the last
    dot on. *)
Definition extension (filename : string) : string :=
  if String.eqb filename "." || String.eqb filename ".." then ""
  else match from_last_dot filename with
       | Some suffix => suffix
       | None => ""
       end.

(** [std::find(extensions.begin(), extensions.end(), ext) != end]. *)
Definition has_extension (extensions : list string) (ext : string) : bool :=
  existsb (String.eqb ext) extensions.

(** Modelled from the spec: [makeRelativePath], a utility of this
    repository defined outside GamelistDB.cpp.  The identifier of
    a path inside the root is the relative-path marker followed by the path
    relative to the root; any other path is kept as it is.  The marker is
    the leading dot that [updateExists] and [exportXML] test for.  The spec
    gives the third argument no role. *)
Definition makeRelativePath (p relativeTo : path) (allowHome : bool) : path :=
  match strip_prefix relativeTo p with
  | Some rest => if at_boundary rest then "." ++ rest else p
  | None => p
  end.

(** Modelled from the spec: [resolvePath], a utility of this repository
    defined outside GamelistDB.cpp.  An identifier that starts
    with the relative-path marker is joined to the root, any other one is
    taken as already absolute.  The spec gives the third argument no
    role. *)
Definition resolvePath (p relativeTo : path) (allowHome : bool) : path :=
  match p with
  | String "." rest => if at_boundary rest then relativeTo ++ rest else p
  | _ => p
  end.

(** [SystemData], as far as the store reads it. *)
Record SystemData := mkSystemData {
  getName : string;
  getStartPath : string;
  getExtensions : list string
}.

Definition pathToFileID (p systemStartPath : path) : string :=
  generic_string (makeRelativePath p systemStartPath false).

Definition pathToFileID_system (p : path) (system : SystemData) : string :=
  pathToFileID p (getStartPath system).

Definition fileIDToPath (fileID : string) (system : SystemData) : path :=
  resolvePath fileID (getStartPath system) true.

(** A path is under a root when the root is a prefix of it that ends at a
    component boundary; the root itself is under the root. *)
Definition under_root (p root : path) : Prop :=
  exists rest, p = root ++ rest /\ at_boundary rest = true.

(** ** Metadata declarations *)

Inductive MetaDataType :=
| MD_STRING | MD_INT | MD_FLOAT | MD_MULTILINE_STRING
| MD_IMAGE_PATH | MD_RATING | MD_DATE | MD_TIME.

Inductive MetaDataListType := GAME_METADATA | FOLDER_METADATA.

Definition MetaDataListType_eqb (a b : MetaDataListType) : bool :=
  match a, b with
  | GAME_METADATA, GAME_METADATA | FOLDER_METADATA, FOLDER_METADATA => true
  | _, _ => false
  end.

Record MetaDataDecl := mkDecl {
  key : string;
  type : MetaDataType;
  defaultValue : string
}.

(** What FileData.h and MetaData.h declare and the store uses: the two
    [FileType] enumerators and the table of metadata declarations behind
    [getMDDMap].  Their values are parameters of the development, and so
    is what the engine does to a text that is stored in a column declared
    INT, FLOAT, DATE or DATETIME: [numeric_text t s] is the text
    [sqlite3_column_text] gives back once [s] has been stored in the column
    [createTables] declares for a field of type [t] (a text that reads as a
    number is stored as the number).  [NDEBUG] tells whether the build
    defines the macro of that name, which compiles every [assert] out. *)
Class Declarations := {
  FileType_GAME : Z;
  FileType_FOLDER : Z;
  getMDDMap : MetaDataListType -> list MetaDataDecl;
  numeric_text : MetaDataType -> string -> string;
  NDEBUG : bool
}.

(** Modelled from the spec: [MetaDataMap], declared in MetaData.h and
    defined outside GamelistDB.cpp.  A map is made for one catalog and
    starts with every field at the catalog's default; values are strings. *)
Record MetaDataMap := mkMetaDataMap {
  getType : MetaDataListType;
  values : list (string * string)
}.

Definition MetaDataMap_new `{Declarations} (t : MetaDataListType) : MetaDataMap :=
  {| getType := t;
     values := map (fun d => (key d, defaultValue d)) (getMDDMap t) |}.

Definition getMDD `{Declarations} (m : MetaDataMap) : list MetaDataDecl :=
  getMDDMap (getType m).

Fixpoint assoc_get (k : string) (l : list (string * string)) : string :=
  match l with
  | [] => ""
  | (k', v) :: l' => if String.eqb k k' then v else assoc_get k l'
  end.

Fixpoint assoc_set (k v : string) (l : list (string * string))
  : list (string * string) :=
  match l with
  | [] => [(k, v)]
  | (k', v') :: l' =>
      if String.eqb k k' then (k, v) :: l' else (k', v') :: assoc_set k v l'
  end.

Definition MetaDataMap_get (m : MetaDataMap) (k : string) : string :=
  assoc_get k (values m).

Definition MetaDataMap_set (m : MetaDataMap) (k v : string) : MetaDataMap :=
  {| getType := getType m; values := assoc_set k v (values m) |}.

(** ** Outcomes *)

Inductive exn :=
| DBException (what : string)
| ESException (what : string)
| filesystem_error        (* thrown by boost::filesystem *)
| logic_error             (* a std::string built from a null pointer *)
| assertion_failure       (* a failed assert *)
| terminate.              (* a destructor that throws while unwinding *)

(** A call returns, throws, or does what is not modelled below: it issues
    SQL text that lies outside the modelled part of the engine's grammar,
    or it uses a null pointer as a string in a build without asserts. *)
Inductive outcome (A : Type) :=
| Returned (a : A)
| Thrown (e : exn)
| Unmodelled.

Arguments Returned {A} a.
Arguments Thrown {A} e.
Arguments Unmodelled {A}.

(** ** The table and the engine *)

(** One row of [files]: the four fixed columns of [createTables] and one
    cell per metadata declaration of the game catalog, [None] for NULL.
    A metadata cell holds the text [sqlite3_column_text] gives for what
    the column stores. *)
Record row := mkRow {
  fileid : string;
  systemid : string;
  filetype : Z;
  fileexists : option Z;
  metadata : list (option string)
}.

Definition table := list row.

(** The database behind the [sqlite3*] handle: what has been committed
    and, while a transaction is open, the contents it works on. *)
Record sqlite3 := mkDB {
  durable : table;
  pending : option table
}.

(** What a statement run on the handle reads. *)
Definition contents (db : sqlite3) : table :=
  match pending db with
  | Some t => t
  | None => durable db
  end.

(** A write goes to the open transaction, or straight to the committed
    contents in autocommit mode. *)
Definition write (t : table) (db : sqlite3) : sqlite3 :=
  match pending db with
  | Some _ => {| durable := durable db; pending := Some t |}
  | None => {| durable := t; pending := None |}
  end.

Definition SQLITE_OK : Z := 0.
Definition SQLITE_ERROR : Z := 1.
Definition SQLITE_ROW : Z := 100.
Definition SQLITE_DONE : Z := 101.

(** [sqlite3_exec(db, "BEGIN TRANSACTION", ...)]. *)
Definition exec_begin (db : sqlite3) : Z * sqlite3 :=
  match pending db with
  | Some _ => (SQLITE_ERROR, db)
  | None => (SQLITE_OK, {| durable := durable db; pending := Some (durable db) |})
  end.

(** [sqlite3_exec(db, "COMMIT TRANSACTION", ...)]. *)
Definition exec_commit (db : sqlite3) : Z * sqlite3 :=
  match pending db with
  | Some t => (SQLITE_OK, {| durable := t; pending := None |})
  | None => (SQLITE_ERROR, db)
  end.

(** Code that runs against the handle: it returns or throws, and leaves
    the database in some state either way. *)
Definition DB (A : Type) : Type := sqlite3 -> outcome A * sqlite3.

Definition ret {A} (a : A) : DB A := fun db => (Returned a, db).

Definition throw {A} (e : exn) : DB A := fun db => (Thrown e, db).

Definition bind {A B} (c : DB A) (k : A -> DB B) : DB B :=
  fun db =>
    match c db with
    | (Returned a, db') => k a db'
    | (Thrown e, db') => (Thrown e, db')
    | (Unmodelled, db') => (Unmodelled, db')
    end.

Notation "x <- c ;; k" := (bind c (fun x => k))
  (at level 61, c at next level, right associativity).
Notation "c ;;; k" := (bind c (fun _ => k))
  (at level 61, right associativity).

(** The statements of a scope whose local object [obj] has a destructor:
    when the body throws, the destructor runs before the exception leaves
    the scope, and a destructor that throws then ends the program. *)
Definition unwinding {A} (destructor : DB unit) (body : DB A) : DB A :=
  fun db =>
    match body db with
    | (Thrown e, db') =>
        match destructor db' with
        | (Returned _, db'') => (Thrown e, db'')
        | (_, db'') => (Thrown terminate, db'')
        end
    | r => r
    end.

(** ** The SQL text the store builds *)

(** The statement texts handed to [SQLPreparedStmt].  Three of them are
    built with [operator<<] and carry the system's name as part of the
    text; the others only use bound parameters. *)
Inductive sql :=
| InsertOrIgnoreFile (name : string)
    (* "INSERT OR IGNORE INTO files (fileid, systemid, filetype) VALUES (?1, " << name << ", ?2)" *)
| SelectFileids (name : string)
    (* "SELECT fileid FROM files WHERE systemid = " << name *)
| UpdateFileexists (name : string)
    (* "UPDATE files SET fileexists = ?1 WHERE fileid = ?2 AND systemid = " << name *)
| SelectFile
    (* "SELECT * FROM files WHERE fileid = ?1 AND systemid = ?2" *)
| InsertOrReplaceFile (nfields : nat).
    (* "INSERT OR REPLACE INTO files VALUES (?1, ?2, ?3, ?4, " followed by
       "?5", ..., one parameter per metadata field with ", " between them,
       and ")" *)

Definition is_letter (c : ascii) : bool :=
  let n := nat_of_ascii c in
  (Nat.leb 65 n && Nat.leb n 90) || (Nat.leb 97 n && Nat.leb n 122).

Definition is_digit (c : ascii) : bool :=
  let n := nat_of_ascii c in Nat.leb 48 n && Nat.leb n 57.

Definition is_word_start (c : ascii) : bool := is_letter c || Ascii.eqb c "_".

Fixpoint all_chars (f : ascii -> bool) (s : string) : bool :=
  match s with
  | EmptyString => true
  | String c s' => f c && all_chars f s'
  end.

(** A bare word, as the engine's tokenizer reads an identifier or a
    keyword. *)
Definition is_word (w : string) : bool :=
  match w with
  | EmptyString => false
  | String c w' =>
      is_word_start c && all_chars (fun a => is_word_start a || is_digit a) w'
  end.

Definition to_lower (c : ascii) : ascii :=
  let n := nat_of_ascii c in
  if Nat.leb 65 n && Nat.leb n 90 then ascii_of_nat (n + 32) else c.

Fixpoint lower (s : string) : string :=
  match s with
  | EmptyString => EmptyString
  | String c s' => String (to_lower c) (lower s')
  end.

(** The pieces of a text between its spaces. *)
Fixpoint words_of (s : string) : list string :=
  match s with
  | EmptyString => [""]
  | String c s' =>
      if Ascii.eqb c " " then "" :: words_of s'
      else match words_of s' with
           | w :: ws => String c w :: ws
           | [] => [String c ""]
           end
  end.

(** The text after an opening quote, up to a closing quote that ends the
    text; [None] when the text is unterminated, goes on after a quote, or
    holds the character that ends a C string. *)
Fixpoint literal_body (s : string) : option string :=
  match s with
  | EmptyString => None
  | String c s' =>
      if Ascii.eqb c "'" then
        match s' with EmptyString => Some "" | _ => None end
      else if Ascii.eqb c zero then None
      else option_map (String c) (literal_body s')
  end.

(** Words with which an expression can begin without naming a column of
    the statement's own making: constants, prefix operators and the row
    identifier aliases. *)
Definition expression_words : list string :=
  ["null"; "true"; "false"; "current_date"; "current_time";
   "current_timestamp"; "not"; "case"; "cast"; "exists"; "raise";
   "rowid"; "oid"; "_rowid_"].

Definition column_names `{Declarations} : list string :=
  ["fileid"; "systemid"; "filetype"; "fileexists"]
    ++ map key (getMDDMap GAME_METADATA).

(** How the engine reads a system name that was written into the statement
    text where an expression is expected. *)
Inductive operand :=
| OperandText (v : string)   (* a quoted literal: the text [v] *)
| OperandRejected            (* the statement does not prepare *)
| OperandOther.              (* outside the modelled part of the grammar *)

(** A name between single quotes, with no further quote inside, is a
    string literal.  A name made of bare words is an identifier followed
    by more tokens: unless its first word is a column or one of
    [expression_words], no statement with it prepares (the word is an
    unknown column, or the text is a syntax error).  Every other shape is
    left unmodelled. *)
Definition classify_operand `{Declarations} (name : string) : operand :=
  match name with
  | String "'" rest =>
      match literal_body rest with
      | Some v => OperandText v
      | None => OperandOther
      end
  | _ =>
      match words_of name with
      | first :: others =>
          if forallb is_word (first :: others) then
            if existsb (String.eqb (lower first))
                 (expression_words ++ map lower column_names)
            then OperandOther else OperandRejected
          else OperandOther
      | [] => OperandOther
      end
  end.

(** A prepared statement: what is left to know of it is the value its
    interpolated operand stands for (empty for the parameter-only
    statements). *)
Record sqlite3_stmt := mkStmt { bound_systemid : string }.

(** [sqlite3_prepare_v2]: the result code and the statement, or [None] for
    a text outside the modelled grammar.  [INSERT ... VALUES] without a
    column list needs one value per column of the table, and with no
    metadata field the text [setFileData] builds ends in ", )". *)
Definition sqlite3_prepare_v2 `{Declarations} (q : sql)
  : option (Z * sqlite3_stmt) :=
  match q with
  | InsertOrIgnoreFile name | SelectFileids name | UpdateFileexists name =>
      match classify_operand name with
      | OperandText v => Some (SQLITE_OK, mkStmt v)
      | OperandRejected => Some (SQLITE_ERROR, mkStmt "")
      | OperandOther => None
      end
  | SelectFile => Some (SQLITE_OK, mkStmt "")
  | InsertOrReplaceFile nfields =>
      if negb (Nat.eqb nfields 0) && Nat.eqb (4 + nfields) (length column_names)
      then Some (SQLITE_OK, mkStmt "") else Some (SQLITE_ERROR, mkStmt "")
  end.

(** ** [SQLPreparedStmt] and [SQLTransaction] *)

Definition SQLPreparedStmt `{Declarations} (q : sql) : DB sqlite3_stmt :=
  match sqlite3_prepare_v2 q with
  | Some (rc, stmt) =>
      if Z.eqb rc SQLITE_OK then ret stmt
      else throw (DBException "Error creating prepared stmt")
  | None => fun db => (Unmodelled, db)
  end.

(** A call into the engine that yields a result code. *)
Definition call (f : sqlite3 -> Z * sqlite3) : DB Z :=
  fun db => let (rc, db') := f db in (Returned rc, db').

(** [SQLPreparedStmt::step_expected]. *)
Definition step_expected (step : sqlite3 -> Z * sqlite3) (expected : Z)
  : DB unit :=
  rc <- call step ;;
  if Z.eqb rc expected then ret tt else throw (DBException "Step failed!").

(** The transaction object; [tx_mDB] tells whether its [mDB] member is
    still set. *)
Record SQLTransaction := mkTransaction { tx_mDB : bool }.

Definition SQLTransaction_new : DB SQLTransaction :=
  rc <- call exec_begin ;;
  if Z.eqb rc SQLITE_OK then ret (mkTransaction true)
  else throw (DBException "Error beginning transaction.").

Definition commit (t : SQLTransaction) : DB SQLTransaction :=
  if negb (tx_mDB t) then throw (DBException "Transaction already committed!")
  else
    rc <- call exec_commit ;;
    if Z.eqb rc SQLITE_OK then ret (mkTransaction false)
    else throw (DBException "Error committing transaction.").

(** [~SQLTransaction]. *)
Definition SQLTransaction_destroy (t : SQLTransaction) : DB unit :=
  if tx_mDB t then commit t ;;; ret tt else ret tt.

(** ** Statements at work *)

(** The default [createTables] declares for a metadata column: the
    declaration's default value when it has one, for every type but the
    two date types. *)
Definition column_default (d : MetaDataDecl) : option string :=
  match type d with
  | MD_IMAGE_PATH | MD_MULTILINE_STRING | MD_STRING
  | MD_INT | MD_RATING | MD_FLOAT =>
      if String.eqb (defaultValue d) "" then None else Some (defaultValue d)
  | MD_DATE | MD_TIME => None
  end.

(** What a text stored in the column of a field of type [t] reads back
    as: [createTables] declares VARCHAR(255) for the three text types,
    which keeps a text as it is, and INT, FLOAT, DATE or DATETIME for the
    others. *)
Definition stored_text `{Declarations} (t : MetaDataType) (s : string)
  : string :=
  match t with
  | MD_STRING | MD_MULTILINE_STRING | MD_IMAGE_PATH => s
  | MD_INT | MD_RATING | MD_FLOAT | MD_DATE | MD_TIME => numeric_text t s
  end.

(** The cells of an insert, column by column, as the table stores them. *)
Fixpoint affinity_cells `{Declarations}
    (columns : list MetaDataDecl) (values : list (option string))
  : list (option string) :=
  match columns, values with
  | d :: columns', c :: values' =>
      option_map (stored_text (type d)) c :: affinity_cells columns' values'
  | _, _ => values
  end.

(** A row of values as the table stores it. *)
Definition with_affinity `{Declarations} (r : row) : row :=
  {| fileid := fileid r; systemid := systemid r; filetype := filetype r;
     fileexists := fileexists r;
     metadata := affinity_cells (getMDDMap GAME_METADATA) (metadata r) |}.

(** [PRIMARY KEY (fileid, systemid)]. *)
Definition key_matches (f s : string) (r : row) : bool :=
  String.eqb (fileid r) f && String.eqb (systemid r) s.

(** The row an insert that names only [fileid], [systemid] and [filetype]
    makes: every other column at its default. *)
Definition bare_row `{Declarations} (f s : string) (ft : Z) : row :=
  {| fileid := f; systemid := s; filetype := ft; fileexists := None;
     metadata :=
       map (fun d => option_map (stored_text (type d)) (column_default d))
         (getMDDMap GAME_METADATA) |}.

(** One step of the prepared [INSERT OR IGNORE] with [?1 = f], [?2 = ft]:
    a row whose key is taken already is left alone. *)
Definition step_insert_or_ignore `{Declarations}
    (stmt : sqlite3_stmt) (f : string) (ft : Z) (db : sqlite3)
  : Z * sqlite3 :=
  let t := contents db in
  if existsb (key_matches f (bound_systemid stmt)) t then (SQLITE_DONE, db)
  else (SQLITE_DONE, write (t ++ [bare_row f (bound_systemid stmt) ft])%list db).

(** One step of the prepared [INSERT OR REPLACE] with the values of [r]
    bound: a row with the same key is deleted first. *)
Definition step_insert_or_replace `{Declarations} (r : row) (db : sqlite3)
  : Z * sqlite3 :=
  let t := contents db in
  (SQLITE_DONE,
   write (filter (fun r' => negb (key_matches (fileid r) (systemid r) r')) t
            ++ [with_affinity r])%list db).

(** One step of the prepared [UPDATE] with [?1 = e], [?2 = f]. *)
Definition step_update_fileexists
    (stmt : sqlite3_stmt) (e : Z) (f : string) (db : sqlite3)
  : Z * sqlite3 :=
  let set r :=
    if key_matches f (bound_systemid stmt) r
    then {| fileid := fileid r; systemid := systemid r;
            filetype := filetype r; fileexists := Some e;
            metadata := metadata r |}
    else r in
  (SQLITE_DONE, write (map set (contents db)) db).

(** A text into a list of texts in byte order, after those that do not
    come after it. *)
Fixpoint insert_sorted (s : string) (l : list string) : list string :=
  match l with
  | [] => [s]
  | s' :: l' =>
      if String.leb s' s then s' :: insert_sorted s l' else s :: l
  end.

Definition sort_texts (l : list string) : list string :=
  fold_right insert_sorted [] l.

(** The [fileid] column of the rows the prepared [SELECT fileid] walks.
    The statement needs the two key columns only, and the engine reads
    them off the index of the primary key: the rows come by [fileid] in
    byte order. *)
Definition select_fileids (stmt : sqlite3_stmt) (db : sqlite3) : list string :=
  sort_texts
    (map fileid
       (filter (fun r => String.eqb (systemid r) (bound_systemid stmt))
          (contents db))).

(** The first step of the prepared [SELECT *] by key: [SQLITE_ROW] and the
    row when there is one, [SQLITE_DONE] and no current row otherwise. *)
Definition step_select_file (f s : string) (db : sqlite3)
  : Z * option row :=
  match filter (key_matches f s) (contents db) with
  | r :: _ => (SQLITE_ROW, Some r)
  | [] => (SQLITE_DONE, None)
  end.

(** ** The scanner *)

Definition add_file `{Declarations}
    (fileid : string) (filetype : Z) (insert_stmt : sqlite3_stmt)
  : DB unit :=
  rc <- call (step_insert_or_ignore insert_stmt fileid FileType_GAME) ;;
  if Z.eqb rc SQLITE_DONE then ret tt
  else throw (DBException "Error adding file in populate().").

(** What a directory iterator can meet: a regular file, or a directory
    with its own entries in iteration order; a directory that is not
    [readable] cannot be opened for iteration. *)
#[warnings="-register-all"]
Inductive dirent :=
| regular_file (name : string)
| directory (name : string) (readable : bool) (entries : list dirent).

(** [populate_recursive]; [what] is what the filesystem holds at
    [start_dir].  Constructing the iterator over anything but a readable
    directory throws. *)
Fixpoint populate_recursive `{Declarations}
    (relativeTo : path) (extensions : list string) (start_dir : path)
    (what : dirent) (insert_stmt : sqlite3_stmt) {struct what} : DB bool :=
  match what with
  | directory _ true entries =>
      has_a_file <-
        (fix each (dir : list dirent) (has_a_file : bool) {struct dir}
           : DB bool :=
           match dir with
           | [] => ret has_a_file
           | entry :: dir' =>
               match entry with
               | directory name _ _ =>
                   found <- populate_recursive relativeTo extensions
                              (path_append start_dir name) entry insert_stmt ;;
                   each dir' (if found then true else has_a_file)
               | regular_file name =>
                   if negb (has_extension extensions (extension name))
                   then each dir' has_a_file
                   else
                     add_file
                       (pathToFileID (path_append start_dir name) relativeTo)
                       FileType_GAME insert_stmt ;;;
                     each dir' true
               end
           end) entries false ;;
      if has_a_file
      then add_file (pathToFileID start_dir relativeTo)
             FileType_FOLDER insert_stmt ;;; ret has_a_file
      else ret has_a_file
  | _ => throw filesystem_error
  end.

(** [GamelistDB::addMissingFiles]; [root] is what the filesystem holds at
    the system's start path. *)
Definition addMissingFiles `{Declarations}
    (system : SystemData) (root : dirent) : DB unit :=
  let relativeTo := getStartPath system in
  let extensions := getExtensions system in
  stmt <- SQLPreparedStmt (InsertOrIgnoreFile (getName system)) ;;
  transaction <- SQLTransaction_new ;;
  transaction' <-
    unwinding (SQLTransaction_destroy transaction)
      (populate_recursive relativeTo extensions relativeTo root stmt ;;;
       commit transaction) ;;
  SQLTransaction_destroy transaction'.

(** ** The existence refresher *)

(** [fs::exists]: [None] when the status of the path cannot be read, in
    which case the call throws. *)
Definition filesystem := path -> option bool.

Definition fs_exists (fs : filesystem) (p : path) : DB bool :=
  match fs p with
  | Some b => ret b
  | None => throw filesystem_error
  end.

(** [path[0] == '.']. *)
Definition starts_with_dot (s : string) : bool :=
  match s with
  | String c _ => Ascii.eqb c "."
  | EmptyString => false
  end.

(** The path [updateExists] checks for an identifier. *)
Definition checked_path (relativeTo : string) (p : string) : path :=
  if starts_with_dot p then relativeTo ++ "/" ++ p else p.

(** The body of the loop of [updateExists], once for each row the read
    statement yields.  The rows it walks are those of the collection when
    the loop starts: the updates change no key and add or remove no row. *)
Fixpoint refresh_rows (fs : filesystem) (relativeTo : string)
    (updateStmt : sqlite3_stmt) (paths : list string) : DB unit :=
  match paths with
  | [] => ret tt
  | p :: rest =>
      found <- fs_exists fs (checked_path relativeTo p) ;;
      step_expected (step_update_fileexists updateStmt (Z.b2z found) p)
        SQLITE_DONE ;;;
      refresh_rows fs relativeTo updateStmt rest
  end.

Definition updateExists `{Declarations}
    (system : SystemData) (fs : filesystem) : DB unit :=
  let relativeTo := getStartPath system in
  readStmt <- SQLPreparedStmt (SelectFileids (getName system)) ;;
  updateStmt <- SQLPreparedStmt (UpdateFileexists (getName system)) ;;
  transaction <- SQLTransaction_new ;;
  transaction' <-
    unwinding (SQLTransaction_destroy transaction)
      (paths <- (fun db => (Returned (select_fileids readStmt db), db)) ;;
       refresh_rows fs relativeTo updateStmt paths ;;;
       commit transaction) ;;
  SQLTransaction_destroy transaction'.

(** ** Point reads and writes *)

(** A column of the current row, as the engine holds it. *)
Inductive cell := NULL | INTEGER (z : Z) | TEXT (s : string).

Definition cells (r : row) : list cell :=
  ([TEXT (fileid r); TEXT (systemid r); INTEGER (filetype r);
    match fileexists r with Some e => INTEGER e | None => NULL end]
   ++ map (fun c => match c with Some s => TEXT s | None => NULL end)
        (metadata r))%list.

(** A column read on a statement that has no current row yields NULL. *)
Definition sqlite3_column (current : option row) (i : nat) : cell :=
  match current with
  | Some r => nth i (cells r) NULL
  | None => NULL
  end.

Fixpoint digits_value (s : string) (acc : Z) : Z :=
  match s with
  | EmptyString => acc
  | String c s' =>
      if is_digit c
      then digits_value s' (10 * acc + Z.of_nat (nat_of_ascii c - 48))
      else acc
  end.

(** The integer a text converts to: its leading digits, after a sign. *)
Definition leading_integer (s : string) : Z :=
  match s with
  | String "-" s' => - digits_value s' 0
  | String "+" s' => digits_value s' 0
  | _ => digits_value s 0
  end.

Definition sqlite3_column_int (current : option row) (i : nat) : Z :=
  match sqlite3_column current i with
  | NULL => 0
  | INTEGER z => z
  | TEXT s => leading_integer s
  end.

(** [sqlite3_column_text]: [None] is the null pointer. *)
Definition sqlite3_column_text (current : option row) (i : nat)
  : option string :=
  match sqlite3_column current i with
  | NULL => None
  | INTEGER z => Some (NilZero.string_of_int (Z.to_int z))
  | TEXT s => Some s
  end.

Definition sqlite3_column_count `{Declarations} : nat := length column_names.

Definition sqlite3_column_name `{Declarations} (i : nat) : string :=
  nth i column_names "".

(** The loop of [getFileData] over the columns [i], [i + 1], ...: a null
    column text cannot be made into the [std::string] that
    [MetaDataMap::set] takes. *)
Fixpoint read_columns `{Declarations}
    (current : option row) (columns : list nat) (mdl : MetaDataMap)
  : DB MetaDataMap :=
  match columns with
  | [] => ret mdl
  | i :: columns' =>
      match sqlite3_column_text current i with
      | Some value =>
          read_columns current columns'
            (MetaDataMap_set mdl (sqlite3_column_name i) value)
      | None => throw logic_error
      end
  end.

Definition getFileData `{Declarations} (fileID systemID : string)
  : DB MetaDataMap :=
  readStmt <- SQLPreparedStmt SelectFile ;;
  step_expected
    (fun db => (fst (step_select_file fileID systemID db), db))
    SQLITE_DONE ;;;
  current <-
    (fun db => (Returned (snd (step_select_file fileID systemID db)), db)) ;;
  let type :=
    if Z.eqb (sqlite3_column_int current 1) 0
    then GAME_METADATA else FOLDER_METADATA in
  read_columns current (seq 2 (sqlite3_column_count - 2))
    (MetaDataMap_new type).

Definition setFileData `{Declarations}
    (fileID systemID : string) (metadata : MetaDataMap) : DB unit :=
  let mdd := getMDD metadata in
  stmt <- SQLPreparedStmt (InsertOrReplaceFile (length mdd)) ;;
  step_expected
    (step_insert_or_replace
       {| fileid := fileID;
          systemid := systemID;
          filetype :=
            Z.b2z (MetaDataListType_eqb (getType metadata) FOLDER_METADATA);
          fileexists := Some 1%Z;
          metadata :=
            map (fun d => Some (MetaDataMap_get metadata (key d))) mdd |})
    SQLITE_DONE.

(** ** The gamelist importer *)

#[warnings="-register-all"]
Inductive xml_node :=
| element (name : string) (text : string) (children : list xml_node).

Definition node_name (n : xml_node) : string :=
  match n with element name _ _ => name end.

Definition node_text (n : xml_node) : string :=
  match n with element _ text _ => text end.

Definition node_children (n : xml_node) : list xml_node :=
  match n with element _ _ children => children end.

(** [xml_node::child(name)]: the first child of that name. *)
Definition child (n : xml_node) (name : string) : option xml_node :=
  find (fun c => String.eqb (node_name c) name) (node_children n).

(** The nodes met by [child(tag)] followed by [next_sibling(tag)]. *)
Definition children_named (n : xml_node) (tag : string) : list xml_node :=
  filter (fun c => String.eqb (node_name c) tag) (node_children n).

(** [n.child(name).text().get()]: empty when there is no such child. *)
Definition child_text (n : xml_node) (name : string) : string :=
  match child n name with
  | Some c => node_text c
  | None => ""
  end.

(** What [importXML] keeps while it runs: the local [skipCount], and the
    paths of the warnings it has written to the log, one for each file it
    ignores. *)
Record import_report := mkReport {
  skipCount : nat;
  warnings : list path
}.

(** The metadata map [importXML] builds from a file node. *)
Definition node_metadata `{Declarations}
    (relativeTo : path) (t : MetaDataListType) (fileNode : xml_node)
  : MetaDataMap :=
  let mdl := MetaDataMap_new t in
  fold_left
    (fun mdl d =>
       match child fileNode (key d) with
       | Some md =>
           let value := node_text md in
           let value :=
             match type d with
             | MD_IMAGE_PATH =>
                 generic_string (resolvePath value relativeTo true)
             | _ => value
             end in
           MetaDataMap_set mdl (key d) value
       | None => mdl
       end)
    (getMDD mdl) mdl.

Definition node_path (relativeTo : path) (fileNode : xml_node) : path :=
  resolvePath (child_text fileNode "path") relativeTo false.

(** The inner loop of [importXML] over the nodes of one tag. *)
Fixpoint import_nodes `{Declarations}
    (system : SystemData) (fs : filesystem) (t : MetaDataListType)
    (nodes : list xml_node) (report : import_report) : DB import_report :=
  match nodes with
  | [] => ret report
  | fileNode :: nodes' =>
      let relativeTo := getStartPath system in
      let p := node_path relativeTo fileNode in
      found <- fs_exists fs p ;;
      if negb found then
        import_nodes system fs t nodes'
          {| skipCount := S (skipCount report);
             warnings := (warnings report ++ [p])%list |}
      else
        let mdl := node_metadata relativeTo t fileNode in
        if negb NDEBUG && String.eqb (MetaDataMap_get mdl "name") "" then
          throw assertion_failure
        else
          setFileData (pathToFileID_system p system) (getName system) mdl ;;;
          import_nodes system fs t nodes' report
  end.

(** What [xml_document::load_file] makes of a path: the document node, or
    [None] when the file does not parse. *)
Definition xml_loader := string -> option xml_node.

(** [GamelistDB::importXML].  The function returns nothing; the value
    is what it has written to the log as warnings.  Nothing reads the
    count it keeps. *)
Definition importXML `{Declarations}
    (system : SystemData) (xml_path : string)
    (fs : filesystem) (load_file : xml_loader) : DB (list path) :=
  found <- fs_exists fs xml_path ;;
  if negb found then throw (ESException "XML file not found")
  else
    match load_file xml_path with
    | None => throw (ESException "Error parsing XML")
    | Some doc =>
        match child doc "gameList" with
        | None => throw (ESException "Could not find <gameList> node!")
        | Some root =>
            report <-
              import_nodes system fs GAME_METADATA
                (children_named root "game") (mkReport 0 []) ;;
            report' <-
              import_nodes system fs FOLDER_METADATA
                (children_named root "folder") report ;;
            ret (warnings report')
        end
    end.

Unset Implicit Arguments.

(** ** The gamelist exporter *)

(** [path = relativeTo + path.substr(1)] when [path[0] == '.']. *)
Definition export_path (relativeTo : string) (p : string) : string :=
  match p with
  | String "." rest => relativeTo ++ rest
  | _ => p
  end.

(** The inner loop of [exportXML] over the columns [i], [i + 1], ...: one
    child per column, named after it.  The text of a node cannot be set
    from a null pointer: the XML library asserts that it is given a
    string. *)
Fixpoint export_columns `{Declarations}
    (current : option row) (columns : list nat) (children : list xml_node)
  : DB (list xml_node) :=
  match columns with
  | [] => ret children
  | i :: columns' =>
      match sqlite3_column_text current i with
      | Some value =>
          export_columns current columns'
            (children ++ [element (sqlite3_column_name i) value []])%list
      | None =>
          if NDEBUG then (fun db => (Unmodelled, db))
          else throw assertion_failure
      end
  end.

(** The loop of [exportXML] over the rows the read statement yields;
    [nodes] are the children the root has so far. *)
Fixpoint export_rows `{Declarations}
    (relativeTo : string) (rows : list row) (nodes : list xml_node)
  : DB (list xml_node) :=
  match rows with
  | [] => ret nodes
  | r :: rows' =>
      let current := Some r in
      let tag :=
        if Z.eqb (sqlite3_column_int current 2) 0 then "game" else "folder" in
      match sqlite3_column_text current 0 with
      | Some p =>
          children <-
            export_columns current (seq 4 (sqlite3_column_count - 4))
              [element "path" (export_path relativeTo p) []] ;;
          export_rows relativeTo rows' (nodes ++ [element tag "" children])%list
      | None => throw logic_error
      end
  end.

(** The rows of ["SELECT * FROM files WHERE systemid = ?1"] with the name
    bound to the parameter. *)
Definition select_system (name : string) (db : sqlite3) : list row :=
  filter (fun r => String.eqb (systemid r) name) (contents db).

(** [GamelistDB::exportXML]; the value is the document handed to
    [save_file]. *)
Definition exportXML `{Declarations} (system : SystemData) : DB xml_node :=
  let relativeTo := getStartPath system in
  nodes <-
    (fun db =>
       export_rows relativeTo (select_system (getName system) db) [] db) ;;
  ret (element "" "" [element "gameList" "" nodes]).

(** ** Vocabulary of the statements below *)

(** The database right after [BEGIN TRANSACTION] on a handle with no
    transaction open. *)
Definition begun (db : sqlite3) : sqlite3 :=
  {| durable := durable db; pending := Some (durable db) |}.

(** The database once what the handle works on has been committed. *)
Definition committed (db : sqlite3) : sqlite3 :=
  {| durable := contents db; pending := None |}.

(** The outcome of a body, seen from an operation that returns nothing. *)
Definition discard {A} (o : outcome A) : outcome unit :=
  match o with
  | Returned _ => Returned tt
  | Thrown e => Thrown e
  | Unmodelled => Unmodelled
  end.

(** [r'] is [r] but for the existence flag. *)
Definition same_but_fileexists (r r' : row) : Prop :=
  fileid r' = fileid r /\ systemid r' = systemid r
  /\ filetype r' = filetype r /\ metadata r' = metadata r.

(** The file nodes of a gamelist in the order [importXML] visits them,
    each with the catalog its tag selects. *)
Definition file_nodes (root : xml_node) : list (MetaDataListType * xml_node) :=
  (map (pair GAME_METADATA) (children_named root "game")
   ++ map (pair FOLDER_METADATA) (children_named root "folder"))%list.

(** The row the table holds once [setFileData] has stored [m]: the values
    of [m] in the order of its own catalog, each as the column it lands in
    stores it. *)
Definition bound_row `{Declarations}
    (fileID systemID : string) (m : MetaDataMap) : row :=
  with_affinity
    {| fileid := fileID;
       systemid := systemID;
       filetype := Z.b2z (MetaDataListType_eqb (getType m) FOLDER_METADATA);
       fileexists := Some 1%Z;
       metadata :=
         map (fun d => Some (MetaDataMap_get m (key d))) (getMDD m) |}.

(** Induction over a directory tree, with the property at hand for every
    entry of a directory. *)
Fixpoint dirent_nested_ind (P : dirent -> Prop)
    (Hfile : forall name, P (regular_file name))
    (Hdir : forall name readable entries,
        Forall P entries -> P (directory name readable entries))
    (d : dirent) {struct d} : P d :=
  match d with
  | regular_file name => Hfile name
  | directory name readable entries =>
      Hdir name readable entries
        ((fix all (l : list dirent) : Forall P l :=
            match l with
            | [] => Forall_nil P
            | e :: l' =>
                Forall_cons e (dirent_nested_ind P Hfile Hdir e) (all l')
            end) entries)
  end.

(** [db'] holds the rows of [db] followed by rows that satisfy [P], and a
    transaction is open in one exactly when it is in the other. *)
Definition appends (P : row -> Prop) (db db' : sqlite3) : Prop :=
  (exists added, contents db' = (contents db ++ added)%list /\ Forall P added)
  /\ (pending db' = None <-> pending db = None).

(** The rows the scanner's statement makes. *)
Definition scanned `{Declarations} (stmt : sqlite3_stmt) (r : row) : Prop :=
  filetype r = FileType_GAME /\ systemid r = bound_systemid stmt
  /\ fileexists r = None.

(** What holds of a run of the scanner from [db]: it returns or throws,
    and has only appended rows of its own making. *)
Definition scan_run `{Declarations} {A} (stmt : sqlite3_stmt) (db : sqlite3)
    (r : outcome A * sqlite3) : Prop :=
  fst r <> Unmodelled /\ appends (scanned stmt) db (snd r).

(** [r] with its existence flag set to [e]: what the prepared [UPDATE]
    makes of a row it matches. *)
Definition set_fileexists (e : Z) (r : row) : row :=
  {| fileid := fileid r; systemid := systemid r; filetype := filetype r;
     fileexists := Some e; metadata := metadata r |}.

(** A row once its path has been looked up, if it is of system [v] and its
    identifier is among [paths]. *)
Definition touched (fs : filesystem) (relativeTo v : string)
    (paths : list string) (r : row) : row :=
  if String.eqb (systemid r) v && existsb (String.eqb (fileid r)) paths then
    match fs (checked_path relativeTo (fileid r)) with
    | Some b => set_fileexists (Z.b2z b) r
    | None => r
    end
  else r.

(** A row of system [v] once its path has been looked up. *)
Definition refreshed (fs : filesystem) (relativeTo v : string) (r : row)
  : row :=
  if String.eqb (systemid r) v then
    match fs (checked_path relativeTo (fileid r)) with
    | Some b => set_fileexists (Z.b2z b) r
    | None => r
    end
  else r.

(** The statement [setFileData] builds for [m] prepares: [m] has a field,
    and as many fields as the table has metadata columns. *)
Definition fits_table `{Declarations} (m : MetaDataMap) : bool :=
  negb (Nat.eqb (length (getMDD m)) 0)
  && Nat.eqb (4 + length (getMDD m)) (length column_names).

(** *** Directory trees *)

Definition dirent_name (d : dirent) : string :=
  match d with
  | regular_file name => name
  | directory name _ _ => name
  end.

(** There is a file with an allowed extension in [d] or below it. *)
Fixpoint has_match (extensions : list string) (d : dirent) : bool :=
  match d with
  | regular_file name => has_extension extensions (extension name)
  | directory _ _ entries => existsb (has_match extensions) entries
  end.

(** Every directory in [d] and below can be opened. *)
Fixpoint visitable (d : dirent) : bool :=
  match d with
  | regular_file _ => true
  | directory _ readable entries => readable && forallb visitable entries
  end.

(** [d] is a directory, and it and every directory below can be opened. *)
Definition openable (d : dirent) : bool :=
  match d with
  | regular_file _ => false
  | directory _ _ _ => visitable d
  end.

(** The paths of the files with an allowed extension in the tree [d] that
    sits at [p]. *)
Fixpoint matching_files (extensions : list string) (p : path) (d : dirent)
  : list path :=
  match d with
  | regular_file name =>
      if has_extension extensions (extension name) then [p] else []
  | directory _ _ entries =>
      flat_map
        (fun e => matching_files extensions (path_append p (dirent_name e)) e)
        entries
  end.

(** The paths of the directories of the tree [d] that sits at [p], [p]
    included, below which there is a file with an allowed extension. *)
Fixpoint matching_dirs (extensions : list string) (p : path) (d : dirent)
  : list path :=
  match d with
  | regular_file _ => []
  | directory _ _ entries =>
      ((if existsb (has_match extensions) entries then [p] else [])
       ++ flat_map
            (fun e => matching_dirs extensions (path_append p (dirent_name e)) e)
            entries)%list
  end.

(** The paths a walk over the entries [dir] collects with [f], up to and
    including the first entry that holds a directory that cannot be
    opened. *)
Definition walk (f : dirent -> list path) : list dirent -> list path :=
  fix walk (dir : list dirent) : list path :=
    match dir with
    | [] => []
    | e :: dir' => (f e ++ (if visitable e then walk dir' else []))%list
    end.

(** The paths the scanner steps its statement for, in order, when it
    meets [d] at [p]: a file with an allowed extension, or the walk of a
    directory followed by the directory itself when the walk went through
    and met such a file. *)
Fixpoint visited_paths (extensions : list string) (p : path) (d : dirent)
  : list path :=
  match d with
  | regular_file name =>
      if has_extension extensions (extension name) then [p] else []
  | directory _ false _ => []
  | directory _ true entries =>
      (walk
         (fun e => visited_paths extensions (path_append p (dirent_name e)) e)
         entries
       ++ (if forallb visitable entries
              && existsb (has_match extensions) entries
           then [p] else []))%list
  end.

(** The same for the directory a scan starts from. *)
Definition scan_paths (extensions : list string) (p : path) (d : dirent)
  : list path :=
  match d with
  | regular_file _ => []
  | directory _ _ _ => visited_paths extensions p d
  end.

(** *** Tables *)

(** The table after the scanner's statement has been stepped once for
    each of [paths], in order. *)
Definition insert_rows `{Declarations}
    (v : string) (relativeTo : path) (paths : list path) (t : table) : table :=
  fold_left
    (fun t p =>
       if existsb (key_matches (pathToFileID p relativeTo) v) t then t
       else (t ++ [bare_row (pathToFileID p relativeTo) v FileType_GAME])%list)
    paths t.

(** The state a stretch of the scan leaves: the rows for [paths] inserted
    into what the handle works on. *)
Definition scan_state `{Declarations} (stmt : sqlite3_stmt)
    (relativeTo : path) (paths : list path) (db : sqlite3) : sqlite3 :=
  write (insert_rows (bound_systemid stmt) relativeTo paths (contents db)) db.

(** No two rows share a primary key. *)
Definition unique_keys (t : table) : Prop :=
  NoDup (map (fun r => (fileid r, systemid r)) t).

(** The table after an [INSERT OR REPLACE] of [r]. *)
Definition replace_row (r : row) (t : table) : table :=
  (filter (fun r' => negb (key_matches (fileid r) (systemid r) r')) t
   ++ [r])%list.

(** What a refresh may do to a row when the statement's system is [v]:
    change its existence flag if it is of that system, nothing else. *)
Definition refresh_of (v : string) (r r' : row) : Prop :=
  same_but_fileexists r r' /\ (systemid r <> v -> r' = r).

(** A computation on the handle keeps a property of the table it works
    on. *)
Definition preserves {A} (I : table -> Prop) (c : DB A) : Prop :=
  forall db, I (contents db) -> I (contents (snd (c db))).

(** *** Gamelists *)

(** The file of a node is on disk. *)
Definition node_present (fs : filesystem) (relativeTo : path)
    (tn : MetaDataListType * xml_node) : bool :=
  match fs (node_path relativeTo (snd tn)) with
  | Some true => true
  | _ => false
  end.

(** The row [importXML] writes for a node. *)
Definition node_row `{Declarations}
    (system : SystemData) (tn : MetaDataListType * xml_node) : row :=
  bound_row
    (pathToFileID_system (node_path (getStartPath system) (snd tn)) system)
    (getName system)
    (node_metadata (getStartPath system) (fst tn) (snd tn)).

(** What [importXML] makes of the outcome of its loops: the warnings
    stay in the log, the count goes with the scope. *)
Definition logged (r : outcome import_report * sqlite3)
  : outcome (list path) * sqlite3 :=
  match r with
  | (Returned report, db) => (Returned (warnings report), db)
  | (Thrown e, db) => (Thrown e, db)
  | (Unmodelled, db) => (Unmodelled, db)
  end.

(** The children [exportXML] gives the node of a row that [setFileData]
    has written for [m]: the metadata columns of the table by name, with
    the values of [m] in the order of its own catalog, each as its column
    gives it back. *)
Definition exported_fields `{Declarations} (m : MetaDataMap) : list xml_node :=
  map (fun dv => element (key (fst dv)) (stored_text (type (fst dv)) (snd dv)) [])
    (combine (getMDDMap GAME_METADATA)
       (map (fun d => MetaDataMap_get m (key d)) (getMDD m))).

(** ** A concrete installation *)

(** The engine on the texts the samples below store in a numeric column.
    A text of one to fifteen decimal digits is stored as that number: an
    INT, DATE or DATETIME column gives it back without leading zeros, a
    FLOAT column with ".0" after it.  A text without a digit is no number
    and stays as it is.  The other texts (signs, fractions, exponents,
    blanks around a number, longer numbers) are not stored by any sample
    and are left as they are here. *)
Fixpoint drop_zeros (s : string) : string :=
  match s with
  | String c s' =>
      if Ascii.eqb c "0" then
        match s' with
        | EmptyString => s
        | _ => drop_zeros s'
        end
      else s
  | EmptyString => s
  end.

Definition sample_numeric_text (t : MetaDataType) (s : string) : string :=
  if all_chars is_digit s && Nat.leb 1 (String.length s)
     && Nat.leb (String.length s) 15
  then
    match t with
    | MD_FLOAT | MD_RATING => drop_zeros s ++ ".0"
    | _ => drop_zeros s
    end
  else s.

(** Declarations of the kind the two headers make: two enumerators and a
    longer catalog for games than for folders; a build with its asserts. *)
Definition sample_declarations : Declarations :=
  {| FileType_GAME := 1;
     FileType_FOLDER := 2;
     getMDDMap := fun t =>
       match t with
       | GAME_METADATA =>
           [mkDecl "name" MD_STRING ""; mkDecl "desc" MD_MULTILINE_STRING "";
            mkDecl "image" MD_IMAGE_PATH ""; mkDecl "rating" MD_RATING "0";
            mkDecl "releasedate" MD_DATE ""; mkDecl "playcount" MD_INT "0"]
       | FOLDER_METADATA =>
           [mkDecl "name" MD_STRING ""; mkDecl "desc" MD_MULTILINE_STRING "";
            mkDecl "image" MD_IMAGE_PATH ""]
       end;
     numeric_text := sample_numeric_text;
     NDEBUG := false |}.

(** The system of the scan scenario; its name is spelled as a literal so
    that the statements built from it prepare. *)
Definition nes : SystemData :=
  mkSystemData "'nes'" "/roms/nes" [".nes"].

(** The same system under the name a configuration would give it. *)
Definition plain_nes : SystemData :=
  mkSystemData "nes" "/roms/nes" [".nes"].

(** /roms/nes with a.nes and sub/b.nes. *)
Definition nes_root : dirent :=
  directory "nes" true
    [regular_file "a.nes"; directory "sub" true [regular_file "b.nes"]].

(** /roms/nes with a.nes and a directory that cannot be opened. *)
Definition nes_root_locked : dirent :=
  directory "nes" true [regular_file "a.nes"; directory "locked" false []].

Definition empty_db : sqlite3 := mkDB [] None.

(** A filesystem on which a.nes is there and nothing else is. *)
Definition only_a_nes : filesystem :=
  fun p =>
    Some (String.eqb p "/roms/nes/a.nes" || String.eqb p "/roms/nes/./a.nes"
          || String.eqb p "/roms/nes/gamelist.xml").

(** A game's metadata as a caller would fill it in. *)
Definition a_nes_metadata : MetaDataMap :=
  MetaDataMap_set (@MetaDataMap_new sample_declarations GAME_METADATA)
    "name" "A".

(** A gamelist with one game that is on disk and one that is not. *)
Definition gamelist_doc : xml_node :=
  element "" ""
    [element "gameList" ""
       [element "game" ""
          [element "path" "./a.nes" []; element "name" "A" []];
        element "game" ""
          [element "path" "./gone.nes" []; element "name" "Gone" []]]].

Definition gamelist_loader : xml_loader := fun _ => Some gamelist_doc.


(** A filesystem on which nothing is there. *)
Definition nothing_on_disk : filesystem := fun _ => Some false.

(** The table once the record of gone.nes has been written under the name
    of [plain_nes], the way [importXML] writes a record. *)
Definition gone_written : sqlite3 :=
  snd (@setFileData sample_declarations "./gone.nes" (getName plain_nes)
         a_nes_metadata empty_db).

(** The same under the name of [nes]. *)
Definition gone_written_quoted : sqlite3 :=
  snd (@setFileData sample_declarations "./gone.nes" (getName nes)
         a_nes_metadata empty_db).


(** A gamelist with a game that is gone and a folder that is on disk. *)
Definition folder_gamelist_doc : xml_node :=
  element "" ""
    [element "gameList" ""
       [element "game" ""
          [element "path" "./gone.nes" []; element "name" "Gone" []];
        element "folder" ""
          [element "path" "./sub" []; element "name" "Sub" []]]].

(** A filesystem on which the gamelist and the directory sub are there. *)
Definition sub_on_disk : filesystem :=
  fun p =>
    Some (String.eqb p "/roms/nes/gamelist.xml" || String.eqb p "/roms/nes/sub").

(** The database a scan of [nes_root] leaves. *)
Definition scanned_db : sqlite3 :=
  snd (@addMissingFiles sample_declarations nes nes_root empty_db).

(** /roms/nes with nothing a scan would take: a text file and an empty
    directory. *)
Definition nes_root_no_roms : dirent :=
  directory "nes" true [regular_file "readme.txt"; directory "saves" true []].

(** A gamelist with a game on disk, a game that is gone and a folder
    that is gone. *)
Definition longer_gamelist_doc : xml_node :=
  element "" ""
    [element "gameList" ""
       [element "folder" ""
          [element "path" "./old" []; element "name" "Old" []];
        element "game" ""
          [element "path" "./a.nes" []; element "name" "A" []];
        element "game" ""
          [element "path" "./gone.nes" []; element "name" "Gone" []]]].

(** A gamelist whose second game is on disk but has no name. *)
Definition nameless_gamelist_doc : xml_node :=
  element "" ""
    [element "gameList" ""
       [element "game" ""
          [element "path" "./a.nes" []; element "name" "A" []];
        element "game" "" [element "path" "/roms/nes/a.nes" []];
        element "game" ""
          [element "path" "./gone.nes" []; element "name" "Gone" []]]].

(* ------------------------------------------------------------------ *)
(** * Properties *)

(** ** The path normaliser *)

Lemma strip_prefix_app (pre rest : string) :
  strip_prefix pre (pre ++ rest) = Some rest.
Proof.
  induction pre as [|c pre IH]; simpl.
  - reflexivity.
  - rewrite Ascii.eqb_refl. exact IH.
Qed.

Lemma strip_prefix_sound (pre s rest : string) :
  strip_prefix pre s = Some rest -> s = pre ++ rest.
Proof.
  revert s; induction pre as [|c pre IH]; simpl; intros s Hs.
  - now inversion Hs.
  - destruct s as [|b s]; [discriminate|].
    destruct (Ascii.eqb c b) eqn:E; [|discriminate].
    apply Ascii.eqb_eq in E; subst b.
    now rewrite (IH _ Hs).
Qed.

Lemma makeRelativePath_under (root rest : string) (allowHome : bool) :
  at_boundary rest = true ->
  makeRelativePath (root ++ rest) root allowHome = "." ++ rest.
Proof.
  intros Hb. unfold makeRelativePath.
  now rewrite strip_prefix_app, Hb.
Qed.

Lemma resolvePath_marked (root rest : string) (allowHome : bool) :
  at_boundary rest = true ->
  resolvePath ("." ++ rest) root allowHome = root ++ rest.
Proof.
  intros Hb. simpl. now rewrite Hb.
Qed.

(** An identifier made by [pathToFileID] is the marker and a remainder, or
    the path itself. *)
Lemma makeRelativePath_shape (p root : path) (allowHome : bool) :
  (exists rest, p = root ++ rest /\ at_boundary rest = true
                /\ makeRelativePath p root allowHome = "." ++ rest)
  \/ makeRelativePath p root allowHome = p.
Proof.
  unfold makeRelativePath.
  destruct (strip_prefix root p) as [rest|] eqn:E; [|now right].
  destruct (at_boundary rest) eqn:Hb; [|now right].
  left. exists rest. repeat split; auto using strip_prefix_sound.
Qed.

(** C9.  For every path under the root of a system, resolving the
    identifier of the path gives the path back, and taking the identifier
    of the resolved path gives the identifier back: [pathToFileID] and
    [fileIDToPath] are mutual inverses on the paths under the root and on
    the identifiers made from them. *)
Theorem pathToFileID_fileIDToPath_inverse
    (system : SystemData) (p : path) :
  under_root p (getStartPath system) ->
  fileIDToPath (pathToFileID_system p system) system = p
  /\ forall id, id = pathToFileID_system p system ->
       pathToFileID_system (fileIDToPath id system) system = id.
Proof.
  intros (rest & -> & Hb).
  assert (Hback :
    fileIDToPath (pathToFileID_system (getStartPath system ++ rest) system)
      system = getStartPath system ++ rest).
  { unfold fileIDToPath, pathToFileID_system, pathToFileID, generic_string.
    rewrite makeRelativePath_under by exact Hb.
    now apply resolvePath_marked. }
  split; [exact Hback|].
  intros id ->. now rewrite Hback.
Qed.

Lemma pathToFileID_fileIDToPath_inverse_witness :
  under_root "/roms/nes/sub/b.nes" (getStartPath nes)
  /\ fileIDToPath (pathToFileID_system "/roms/nes/sub/b.nes" nes) nes
     = "/roms/nes/sub/b.nes".
Proof.
  assert (H : under_root "/roms/nes/sub/b.nes" (getStartPath nes)).
  { exists "/sub/b.nes". split; reflexivity. }
  split; [exact H|].
  exact (proj1 (pathToFileID_fileIDToPath_inverse nes _ H)).
Defined.

(** ** Statements built from the system's name *)

Section Interpolation.
Context {D : Declarations}.

Lemma SQLPreparedStmt_rejected (name : string) (db : sqlite3) :
  classify_operand name = OperandRejected ->
  SQLPreparedStmt (InsertOrIgnoreFile name) db
    = (Thrown (DBException "Error creating prepared stmt"), db)
  /\ SQLPreparedStmt (SelectFileids name) db
    = (Thrown (DBException "Error creating prepared stmt"), db).
Proof.
  intros Hc. unfold SQLPreparedStmt, sqlite3_prepare_v2.
  rewrite Hc. simpl. split; reflexivity.
Qed.

Lemma SQLPreparedStmt_literal (name v : string) (db : sqlite3) :
  classify_operand name = OperandText v ->
  SQLPreparedStmt (InsertOrIgnoreFile name) db = (Returned (mkStmt v), db)
  /\ SQLPreparedStmt (SelectFileids name) db = (Returned (mkStmt v), db)
  /\ SQLPreparedStmt (UpdateFileexists name) db = (Returned (mkStmt v), db).
Proof.
  intros Hc. unfold SQLPreparedStmt, sqlite3_prepare_v2.
  rewrite Hc. simpl. repeat split; reflexivity.
Qed.

(** C10.  The system's name is written into the statement text.  When the
    name is made of bare words (a plain word, or words with spaces between
    them) the first of which is neither a column nor a word an expression
    can begin with, [addMissingFiles] and [updateExists] both throw when
    their statement is prepared, and the database is as it was: no
    transaction was begun, no row read or written. *)
Theorem interpolated_name_fails_to_prepare
    (system : SystemData) (root : dirent) (fs : filesystem) (db : sqlite3) :
  classify_operand (getName system) = OperandRejected ->
  addMissingFiles system root db
    = (Thrown (DBException "Error creating prepared stmt"), db)
  /\ updateExists system fs db
    = (Thrown (DBException "Error creating prepared stmt"), db).
Proof.
  intros Hc.
  destruct (SQLPreparedStmt_rejected _ db Hc) as [Hins Hsel].
  unfold addMissingFiles, updateExists, bind.
  rewrite Hins, Hsel. split; reflexivity.
Qed.

End Interpolation.

Lemma interpolated_name_fails_to_prepare_witness :
  @classify_operand sample_declarations (getName plain_nes) = OperandRejected
  /\ @addMissingFiles sample_declarations plain_nes nes_root empty_db
     = (Thrown (DBException "Error creating prepared stmt"), empty_db)
  /\ @updateExists sample_declarations plain_nes only_a_nes empty_db
     = (Thrown (DBException "Error creating prepared stmt"), empty_db).
Proof.
  assert (H : @classify_operand sample_declarations (getName plain_nes)
              = OperandRejected) by reflexivity.
  split; [exact H|].
  exact (@interpolated_name_fails_to_prepare sample_declarations
           plain_nes nes_root only_a_nes empty_db H).
Defined.

(** A name with a space in it fares the same. *)
Example name_with_a_space_is_rejected :
  @classify_operand sample_declarations "Super Nintendo" = OperandRejected.
Proof. reflexivity. Qed.

(** ** The engine and the scanner's insert *)

Lemma contents_write (t : table) (db : sqlite3) :
  contents (write t db) = t.
Proof. unfold write, contents. now destruct (pending db). Qed.

Lemma pending_write (t : table) (db : sqlite3) :
  pending (write t db) = None <-> pending db = None.
Proof.
  unfold write. destruct (pending db); simpl; split; congruence.
Qed.

Lemma contents_begun (db : sqlite3) : contents (begun db) = durable db.
Proof. reflexivity. Qed.

Lemma appends_refl (P : row -> Prop) (db : sqlite3) : appends P db db.
Proof.
  split; [|tauto]. exists []. now rewrite app_nil_r.
Qed.

Lemma appends_trans (P : row -> Prop) (a b c : sqlite3) :
  appends P a b -> appends P b c -> appends P a c.
Proof.
  intros [(x & Hx & Px) Hab] [(y & Hy & Py) Hbc]. split; [|tauto].
  exists (x ++ y)%list. split.
  - now rewrite Hy, Hx, app_assoc.
  - apply Forall_app; now split.
Qed.

Section Scanner.
Context {D : Declarations}.



Lemma add_file_spec
    (f : string) (ft : Z) (stmt : sqlite3_stmt) (db : sqlite3) :
  add_file f ft stmt db
  = (Returned tt, snd (step_insert_or_ignore stmt f FileType_GAME db)).
Proof.
  unfold add_file, bind, call, step_insert_or_ignore.
  destruct (existsb _ (contents db)); reflexivity.
Qed.

Lemma add_file_appends
    (f : string) (ft : Z) (stmt : sqlite3_stmt) (db : sqlite3) :
  appends (scanned stmt) db (snd (add_file f ft stmt db)).
Proof.
  rewrite add_file_spec. simpl. unfold step_insert_or_ignore.
  destruct (existsb _ (contents db)); simpl.
  - apply appends_refl.
  - split.
    + exists [bare_row f (bound_systemid stmt) FileType_GAME].
      rewrite contents_write. split; [reflexivity|].
      constructor; [|constructor]. now repeat split.
    + apply pending_write.
Qed.

Lemma scan_run_bind {A B} (stmt : sqlite3_stmt)
    (c : DB A) (k : A -> DB B) (db : sqlite3) :
  scan_run stmt db (c db) ->
  (forall a db', appends (scanned stmt) db db' -> scan_run stmt db' (k a db')) ->
  scan_run stmt db (bind c k db).
Proof.
  intros [Hne Hc] Hk. unfold bind.
  destruct (c db) as [[a| e |] db']; simpl in *.
  - destruct (Hk a db' Hc) as [Hne' Hk']. split; [exact Hne'|].
    eapply appends_trans; eassumption.
  - split; [discriminate|exact Hc].
  - congruence.
Qed.

Lemma scan_run_add_file
    (f : string) (ft : Z) (stmt : sqlite3_stmt) (db : sqlite3) :
  scan_run stmt db (add_file f ft stmt db).
Proof.
  split; [rewrite add_file_spec; discriminate|apply add_file_appends].
Qed.

Lemma populate_recursive_scan_run
    (what : dirent) (relativeTo : path) (extensions : list string)
    (start_dir : path) (stmt : sqlite3_stmt) (db : sqlite3) :
  scan_run stmt db
    (populate_recursive relativeTo extensions start_dir what stmt db).
Proof.
  revert start_dir db.
  induction what as [name | name readable entries IH] using dirent_nested_ind;
    intros start_dir db.
  - simpl. split; [discriminate|apply appends_refl].
  - destruct readable; simpl;
      [|split; [discriminate|apply appends_refl]].
    match goal with
    | |- context [bind (?loop entries false) _] => set (each := loop)
    end.
    assert (Hloop : forall has db0, scan_run stmt db0 (each entries has db0)).
    { induction IH as [| entry dir' Hentry _ IHdir]; intros has db0.
      - simpl. split; [discriminate|apply appends_refl].
      - destruct entry as [fname | dname dreadable dentries].
        + unfold each; simpl; fold each.
          destruct (has_extension extensions (extension fname)); simpl.
          * apply scan_run_bind; [apply scan_run_add_file|].
            intros _ db' _. apply IHdir.
          * apply IHdir.
        + unfold each; cbn -[populate_recursive]; fold each.
          apply scan_run_bind; [apply Hentry|].
          intros found db' _. apply IHdir. }
    apply scan_run_bind; [apply Hloop|].
    intros has db' _. destruct has.
    + apply scan_run_bind; [apply scan_run_add_file|].
      intros _ db'' _. split; [discriminate|apply appends_refl].
    + split; [discriminate|apply appends_refl].
Qed.

End Scanner.

(** ** Transactions *)

Lemma contents_committed (db : sqlite3) : contents (committed db) = contents db.
Proof. reflexivity. Qed.

Lemma commit_open (db : sqlite3) :
  pending db <> None ->
  commit (mkTransaction true) db
  = (Returned (mkTransaction false), committed db).
Proof.
  intros Hp. unfold commit, bind, call, exec_commit, committed, contents.
  simpl. destruct (pending db); [reflexivity|congruence].
Qed.

Lemma SQLTransaction_new_idle (db : sqlite3) :
  pending db = None ->
  SQLTransaction_new db = (Returned (mkTransaction true), begun db).
Proof.
  intros Hp. unfold SQLTransaction_new, bind, call, exec_begin, begun.
  now rewrite Hp.
Qed.

Lemma SQLTransaction_new_busy (db : sqlite3) :
  pending db <> None ->
  SQLTransaction_new db
  = (Thrown (DBException "Error beginning transaction."), db).
Proof.
  intros Hp. unfold SQLTransaction_new, bind, call, exec_begin.
  destruct (pending db); [reflexivity|congruence].
Qed.

(** A scope that holds an [SQLTransaction] and ends with an explicit
    [commit]: however the body leaves, by returning or by throwing, what
    it has written is committed. *)
Lemma transaction_scope {A} (body : DB A) (db : sqlite3) :
  pending db = None ->
  fst (body (begun db)) <> Unmodelled ->
  pending (snd (body (begun db))) <> None ->
  (transaction <- SQLTransaction_new ;;
   transaction' <-
     unwinding (SQLTransaction_destroy transaction)
       (body ;;; commit transaction) ;;
   SQLTransaction_destroy transaction') db
  = (discard (fst (body (begun db))), committed (snd (body (begun db)))).
Proof.
  intros Hidle Hmodelled Hopen.
  unfold bind at 1. rewrite (SQLTransaction_new_idle db Hidle).
  unfold bind, unwinding, SQLTransaction_destroy.
  destruct (body (begun db)) as [[a | e |] db'] eqn:E; simpl in *.
  - rewrite (commit_open db' Hopen). reflexivity.
  - unfold bind. rewrite (commit_open db' Hopen). reflexivity.
  - congruence.
Qed.

Lemma refresh_rows_keeps_open
    (fs : filesystem) (relativeTo : string) (stmt : sqlite3_stmt)
    (paths : list string) (db : sqlite3) :
  fst (refresh_rows fs relativeTo stmt paths db) <> Unmodelled
  /\ (pending (snd (refresh_rows fs relativeTo stmt paths db)) = None
      <-> pending db = None).
Proof.
  revert db; induction paths as [|p rest IH]; intros db; simpl.
  - split; [discriminate|tauto].
  - unfold bind at 1, fs_exists.
    destruct (fs (checked_path relativeTo p)) as [found|]; simpl;
      [|split; [discriminate|tauto]].
    unfold bind at 1, step_expected, bind at 1, call. simpl.
    destruct (IH (write
      (map (fun r => if key_matches p (bound_systemid stmt) r
                     then mkRow (fileid r) (systemid r) (filetype r)
                            (Some (Z.b2z found)) (metadata r)
                     else r) (contents db)) db)) as [Hm Hp].
    split; [exact Hm|].
    rewrite Hp. apply pending_write.
Qed.

Section Transactions.
Context {D : Declarations}.

Lemma addMissingFiles_commits
    (system : SystemData) (root : dirent) (db : sqlite3) (v : string) :
  pending db = None ->
  classify_operand (getName system) = OperandText v ->
  let body :=
    populate_recursive (getStartPath system) (getExtensions system)
      (getStartPath system) root (mkStmt v) (begun db) in
  addMissingFiles system root db
  = (discard (fst body), committed (snd body)).
Proof.
  intros Hidle Hname.
  destruct (SQLPreparedStmt_literal _ v db Hname) as (Hins & _ & _).
  cbv zeta. unfold addMissingFiles. unfold bind at 1. rewrite Hins.
  destruct (populate_recursive_scan_run root (getStartPath system)
              (getExtensions system) (getStartPath system) (mkStmt v)
              (begun db)) as [Hm [_ Hp]].
  apply transaction_scope; [exact Hidle|exact Hm|].
  rewrite Hp. discriminate.
Qed.

Lemma updateExists_commits
    (system : SystemData) (fs : filesystem) (db : sqlite3) (v : string) :
  pending db = None ->
  classify_operand (getName system) = OperandText v ->
  let body :=
    refresh_rows fs (getStartPath system) (mkStmt v)
      (select_fileids (mkStmt v) (begun db)) (begun db) in
  updateExists system fs db
  = (discard (fst body), committed (snd body)).
Proof.
  intros Hidle Hname.
  destruct (SQLPreparedStmt_literal _ v db Hname) as (_ & Hsel & Hupd).
  cbv zeta. unfold updateExists. unfold bind at 1. rewrite Hsel.
  unfold bind at 1. rewrite Hupd.
  set (body := bind (fun db0 => (Returned (select_fileids (mkStmt v) db0), db0))
                 (fun paths => refresh_rows fs (getStartPath system)
                                 (mkStmt v) paths)).
  assert (Hbody : body (begun db)
                  = refresh_rows fs (getStartPath system) (mkStmt v)
                      (select_fileids (mkStmt v) (begun db)) (begun db))
    by reflexivity.
  destruct (refresh_rows_keeps_open fs (getStartPath system) (mkStmt v)
              (select_fileids (mkStmt v) (begun db)) (begun db))
    as [Hm Hp].
  rewrite <- Hbody in Hm, Hp |- *.
  assert (Hscope := transaction_scope body db Hidle Hm).
  rewrite <- Hscope; [reflexivity|].
  rewrite Hp. discriminate.
Qed.


End Transactions.



(** ** What a scan stores *)

Section ScanResults.
Context {D : Declarations}.



(** C3, on the scan of /roms/nes with a.nes and sub/b.nes.  The scan
    returns; the two files and the directory sub are stored, and the row
    of the directory carries the same discriminator as the rows of the
    files, the one [add_file] binds whatever kind it is called with. *)
Theorem scanned_folder_is_stored_as_game :
  let r := addMissingFiles nes nes_root empty_db in
  fst r = Returned tt
  /\ map (fun row => (fileid row, filetype row)) (durable (snd r))
     = [("./a.nes", FileType_GAME); ("./sub/b.nes", FileType_GAME);
        ("./sub", FileType_GAME); (".", FileType_GAME)].
Proof. split; reflexivity. Qed.

(** C4, as the code has it.  Scanning /roms/nes with the allowlist .nes
    and the files a.nes and sub/b.nes returns and leaves exactly four
    rows, all of the scanned system: for a.nes, for sub/b.nes, for sub,
    and for the root itself, under the identifiers the normaliser gives
    them; the rows of a.nes and sub/b.nes are of kind game. *)
Theorem scan_scenario_records :
  let r := addMissingFiles nes nes_root empty_db in
  fst r = Returned tt
  /\ pending (snd r) = None
  /\ map fileid (durable (snd r))
     = [pathToFileID_system "/roms/nes/a.nes" nes;
        pathToFileID_system "/roms/nes/sub/b.nes" nes;
        pathToFileID_system "/roms/nes/sub" nes;
        pathToFileID_system "/roms/nes" nes]
  /\ map fileid (durable (snd r)) = ["./a.nes"; "./sub/b.nes"; "./sub"; "."]
  /\ Forall (fun row => systemid row = "nes") (durable (snd r))
  /\ (forall row, In row (durable (snd r)) ->
        fileid row = "./a.nes" \/ fileid row = "./sub/b.nes" ->
        filetype row = FileType_GAME).
Proof.
  cbv zeta. repeat split; try reflexivity.
  - repeat constructor.
  - intros row Hin _. simpl in Hin.
    destruct Hin as [<-|[<-|[<-|[<-|[]]]]]; reflexivity.
Qed.

End ScanResults.


(** The scan of the scenario stores a row for the root itself, next to
    the three rows of the entries below it. *)
Lemma scan_scenario_stores_the_root :
  let r := @addMissingFiles sample_declarations nes nes_root empty_db in
  fst r = Returned tt
  /\ In (pathToFileID_system "/roms/nes" nes) (map fileid (durable (snd r)))
  /\ length (durable (snd r)) = 4
  /\ ~ (forall id, In id (map fileid (durable (snd r))) ->
          In id [pathToFileID_system "/roms/nes/a.nes" nes;
                 pathToFileID_system "/roms/nes/sub/b.nes" nes;
                 pathToFileID_system "/roms/nes/sub" nes]).
Proof.
  cbv zeta. split; [reflexivity|]. split; [|split; [reflexivity|]].
  - vm_compute. tauto.
  - intros H. specialize (H "." ltac:(vm_compute; tauto)).
    vm_compute in H. destruct H as [H|[H|[H|[]]]]; discriminate.
Qed.

(** ** The existence refresh *)

Lemma touched_step
    (fs : filesystem) (relativeTo v p : string) (b : bool)
    (rest : list string) (r : row) :
  fs (checked_path relativeTo p) = Some b ->
  touched fs relativeTo v rest
    (if key_matches p v r then set_fileexists (Z.b2z b) r else r)
  = touched fs relativeTo v (p :: rest) r.
Proof.
  intros Hfs. unfold touched, key_matches. simpl existsb.
  destruct (String.eqb (systemid r) v) eqn:Hs;
    destruct (String.eqb (fileid r) p) eqn:Hf; simpl;
    rewrite ?Hs; simpl; try reflexivity.
  apply String.eqb_eq in Hf. subst p. rewrite Hfs.
  destruct (existsb (String.eqb (fileid r)) rest); reflexivity.
Qed.

Lemma refresh_rows_cons
    (fs : filesystem) (relativeTo : string) (stmt : sqlite3_stmt)
    (p : string) (rest : list string) (db : sqlite3) (b : bool) :
  fs (checked_path relativeTo p) = Some b ->
  refresh_rows fs relativeTo stmt (p :: rest) db
  = refresh_rows fs relativeTo stmt rest
      (write
         (map (fun r => if key_matches p (bound_systemid stmt) r
                        then set_fileexists (Z.b2z b) r else r)
            (contents db)) db).
Proof.
  intros Hp. simpl. unfold bind, fs_exists. rewrite Hp. reflexivity.
Qed.

Lemma refresh_rows_contents
    (fs : filesystem) (relativeTo : string) (v : string)
    (paths : list string) (db : sqlite3) :
  (forall p, In p paths -> fs (checked_path relativeTo p) <> None) ->
  fst (refresh_rows fs relativeTo (mkStmt v) paths db) = Returned tt
  /\ contents (snd (refresh_rows fs relativeTo (mkStmt v) paths db))
     = map (touched fs relativeTo v paths) (contents db).
Proof.
  revert db; induction paths as [|p rest IH]; intros db Hfs.
  - simpl. split; [reflexivity|].
    unfold touched. simpl. rewrite <- (map_id (contents db)) at 1.
    apply map_ext. intros r. now rewrite andb_false_r.
  - destruct (fs (checked_path relativeTo p)) as [b|] eqn:Hp;
      [|exfalso; apply (Hfs p); [now left|exact Hp]].
    rewrite (refresh_rows_cons fs relativeTo (mkStmt v) p rest db b Hp).
    match goal with
    | |- context [refresh_rows _ _ _ rest ?d] => set (db1 := d)
    end.
    destruct (IH db1 (fun q Hq => Hfs q (or_intror Hq))) as [Hret Hcont].
    split; [exact Hret|].
    rewrite Hcont. unfold db1. rewrite contents_write, map_map.
    apply map_ext. intros r. simpl bound_systemid.
    exact (touched_step fs relativeTo v p b rest r Hp).
Qed.

Lemma In_insert_sorted (p s : string) (l : list string) :
  In p (insert_sorted s l) <-> p = s \/ In p l.
Proof.
  induction l as [|s' l IH]; simpl.
  - intuition congruence.
  - destruct (String.leb s' s); simpl; rewrite ?IH; intuition congruence.
Qed.

Lemma In_sort_texts (p : string) (l : list string) :
  In p (sort_texts l) <-> In p l.
Proof.
  induction l as [|s l IH]; simpl; [tauto|].
  rewrite In_insert_sorted, IH. intuition congruence.
Qed.

Lemma touched_all
    (fs : filesystem) (relativeTo v : string) (t : table) (r : row) :
  In r t ->
  touched fs relativeTo v (select_fileids (mkStmt v) (mkDB t None)) r
  = refreshed fs relativeTo v r.
Proof.
  intros Hin. unfold touched, refreshed.
  destruct (String.eqb (systemid r) v) eqn:Hs; [|reflexivity].
  replace (existsb _ _) with true; [reflexivity|].
  symmetry. apply existsb_exists. exists (fileid r).
  split; [|apply String.eqb_refl].
  apply In_sort_texts, in_map, filter_In. now split.
Qed.

Lemma Forall2_map_same {A} (R : A -> A -> Prop) (f : A -> A) (l : list A) :
  (forall a, In a l -> R a (f a)) -> Forall2 R l (map f l).
Proof.
  induction l as [|a l IH]; intros H; simpl; constructor.
  - apply H. now left.
  - apply IH. intros b Hb. apply H. now right.
Qed.

Section Refresh.
Context {D : Declarations}.

(** The refresh as one pass over the table. *)
Lemma updateExists_refreshes
    (system : SystemData) (fs : filesystem) (db : sqlite3) (v : string) :
  pending db = None ->
  classify_operand (getName system) = OperandText v ->
  (forall r, In r (durable db) -> systemid r = v ->
     fs (checked_path (getStartPath system) (fileid r)) <> None) ->
  updateExists system fs db
  = (Returned tt,
     mkDB (map (refreshed fs (getStartPath system) v) (durable db)) None).
Proof.
  intros Hidle Hname Hfs.
  rewrite (updateExists_commits system fs db v Hidle Hname). cbv zeta.
  destruct (refresh_rows_contents fs (getStartPath system) v
              (select_fileids (mkStmt v) (begun db)) (begun db))
    as [Hret Hcont].
  { intros p Hp. unfold select_fileids in Hp.
    apply (proj1 (In_sort_texts _ _)) in Hp. simpl in Hp.
    apply in_map_iff in Hp. destruct Hp as (r & <- & Hr).
    apply filter_In in Hr. destruct Hr as [Hin Hs].
    apply (Hfs r Hin). now apply String.eqb_eq. }
  rewrite Hret. unfold committed. rewrite Hcont. simpl.
  f_equal. f_equal. apply map_ext_in. intros r Hin.
  now apply (touched_all fs (getStartPath system) v (durable db)).
Qed.

(** The refresh of the rows a scan stores.  On a handle with no
    transaction open, for a system whose name the engine reads as the
    literal [v], and when the status of every path to check can be read,
    [updateExists] returns and leaves no transaction open; the table has
    the same rows in the same places, each equal to what it was in every
    column but the existence flag; the flag of every row whose system
    column holds [v] tells whether the filesystem has the row's path, the
    identifier joined to the root when it starts with the marker and the
    identifier itself otherwise; and the other rows are untouched. *)
Lemma updateExists_sets_existence
    (system : SystemData) (fs : filesystem) (db : sqlite3) (v : string) :
  pending db = None ->
  classify_operand (getName system) = OperandText v ->
  (forall r, In r (durable db) -> systemid r = v ->
     fs (checked_path (getStartPath system) (fileid r)) <> None) ->
  exists db',
    updateExists system fs db = (Returned tt, db')
    /\ pending db' = None
    /\ Forall2
         (fun r r' =>
            same_but_fileexists r r'
            /\ (systemid r = v ->
                exists b,
                  fs (if starts_with_dot (fileid r)
                      then getStartPath system ++ "/" ++ fileid r
                      else fileid r) = Some b
                  /\ fileexists r' = Some (Z.b2z b))
            /\ (systemid r <> v -> r' = r))
         (durable db) (durable db').
Proof.
  intros Hidle Hname Hfs.
  eexists. split; [apply updateExists_refreshes; eassumption|].
  split; [reflexivity|]. simpl.
  apply Forall2_map_same. intros r Hin. unfold refreshed.
  destruct (String.eqb (systemid r) v) eqn:Hs.
  - apply String.eqb_eq in Hs.
    specialize (Hfs r Hin Hs). unfold checked_path in Hfs |- *.
    destruct (fs _) as [b|] eqn:Hb; [|congruence].
    split; [now repeat split|]. split; [|congruence].
    intros _. exists b. now split.
  - apply String.eqb_neq in Hs.
    split; [now repeat split|]. split; [congruence|reflexivity].
Qed.

End Refresh.

Lemma updateExists_sets_existence_witness :
  pending scanned_db = None
  /\ @classify_operand sample_declarations (getName nes) = OperandText "nes"
  /\ exists db',
       @updateExists sample_declarations nes only_a_nes scanned_db
       = (Returned tt, db')
       /\ map (fun r => (fileid r, fileexists r)) (durable db')
          = [("./a.nes", Some 1%Z); ("./sub/b.nes", Some 0%Z);
             ("./sub", Some 0%Z); (".", Some 0%Z)].
Proof.
  assert (Hidle : pending scanned_db = None) by reflexivity.
  assert (Hname : @classify_operand sample_declarations (getName nes)
                  = OperandText "nes") by reflexivity.
  assert (Hfs : forall r, In r (durable scanned_db) -> systemid r = "nes" ->
                  only_a_nes (checked_path (getStartPath nes) (fileid r))
                  <> None) by (intros; discriminate).
  split; [exact Hidle|]. split; [exact Hname|].
  destruct (@updateExists_sets_existence sample_declarations
              nes only_a_nes scanned_db "nes" Hidle Hname Hfs)
    as (db' & Hrun & _).
  exists db'. split; [exact Hrun|].
  assert (E : db' = snd (@updateExists sample_declarations nes only_a_nes
                           scanned_db)) by now rewrite Hrun.
  rewrite E. reflexivity.
Defined.

(** C6, on a record that the store has written for the collection.
    [setFileData], as [importXML] calls it, stores the record of gone.nes
    under the system's name with its existence flag set.  The file is not
    on disk.  For the system named nes, [updateExists] throws when its
    first statement is prepared and the flag stays set; for the system
    named 'nes', whose statements prepare, it returns, and the flag stays
    set as well: its statements look for the text nes in the system
    column, and the record is stored under the name as it is. *)
Theorem updateExists_leaves_a_written_record_stale :
  map (fun r => (fileid r, systemid r, fileexists r)) (durable gone_written)
  = [("./gone.nes", getName plain_nes, Some 1%Z)]
  /\ nothing_on_disk (checked_path (getStartPath plain_nes) "./gone.nes")
     = Some false
  /\ @updateExists sample_declarations plain_nes nothing_on_disk gone_written
     = (Thrown (DBException "Error creating prepared stmt"), gone_written)
  /\ map (fun r => (fileid r, systemid r, fileexists r))
       (durable gone_written_quoted)
     = [("./gone.nes", getName nes, Some 1%Z)]
  /\ @updateExists sample_declarations nes nothing_on_disk gone_written_quoted
     = (Returned tt, gone_written_quoted).
Proof. repeat split; reflexivity. Qed.

(** ** Point reads and writes *)

Section ReadWrite.
Context {D : Declarations}.

Lemma length_column_names :
  length column_names = 4 + length (getMDDMap GAME_METADATA).
Proof. unfold column_names. rewrite length_app, length_map. reflexivity. Qed.

Lemma step_select_file_present (fileID systemID : string) (db : sqlite3) :
  existsb (key_matches fileID systemID) (contents db) = true ->
  exists r, step_select_file fileID systemID db = (SQLITE_ROW, Some r).
Proof.
  intros H. unfold step_select_file.
  destruct (filter (key_matches fileID systemID) (contents db)) as [|r t] eqn:E.
  - apply existsb_exists in H. destruct H as (r & Hin & Hr).
    assert (Hf : In r (filter (key_matches fileID systemID) (contents db)))
      by (apply filter_In; now split).
    rewrite E in Hf. destruct Hf.
  - now exists r.
Qed.

Lemma step_select_file_absent (fileID systemID : string) (db : sqlite3) :
  existsb (key_matches fileID systemID) (contents db) = false ->
  step_select_file fileID systemID db = (SQLITE_DONE, None).
Proof.
  intros H. unfold step_select_file.
  destruct (filter (key_matches fileID systemID) (contents db)) as [|r t] eqn:E.
  - reflexivity.
  - assert (Hf : In r (filter (key_matches fileID systemID) (contents db)))
      by (rewrite E; now left).
    apply filter_In in Hf. destruct Hf as [Hin Hr].
    assert (Ht : existsb (key_matches fileID systemID) (contents db) = true)
      by (apply existsb_exists; now exists r).
    congruence.
Qed.

(** With a row under the key, the first step of the read statement yields
    [SQLITE_ROW], which is not the code [getFileData] expects. *)
Lemma getFileData_present (fileID systemID : string) (db : sqlite3) :
  existsb (key_matches fileID systemID) (contents db) = true ->
  getFileData fileID systemID db = (Thrown (DBException "Step failed!"), db).
Proof.
  intros H.
  destruct (step_select_file_present fileID systemID db H) as (r & Hr).
  unfold getFileData, bind, SQLPreparedStmt, step_expected, bind, call.
  simpl. rewrite Hr. reflexivity.
Qed.

(** Without a row under the key the step check passes, and the columns
    are read from a statement that has no current row. *)
Lemma getFileData_absent (fileID systemID : string) (db : sqlite3) :
  existsb (key_matches fileID systemID) (contents db) = false ->
  getFileData fileID systemID db = (Thrown logic_error, db).
Proof.
  intros H.
  assert (Hr := step_select_file_absent fileID systemID db H).
  unfold getFileData, sqlite3_column_count.
  rewrite length_column_names.
  unfold bind, SQLPreparedStmt, step_expected, bind, call.
  simpl. rewrite Hr. simpl. rewrite Hr. reflexivity.
Qed.

Lemma fits_table_true (m : MetaDataMap) :
  fits_table m = true <->
  getMDD m <> [] /\ length (getMDD m) = length (getMDDMap GAME_METADATA).
Proof.
  unfold fits_table. rewrite length_column_names, andb_true_iff,
    negb_true_iff, Nat.eqb_neq, Nat.eqb_eq.
  destruct (getMDD m); simpl; split; intros [H1 H2]; split;
    try congruence; try lia.
Qed.

Lemma setFileData_spec
    (fileID systemID : string) (m : MetaDataMap) (db : sqlite3) :
  fits_table m = true ->
  setFileData fileID systemID m db
  = (Returned tt,
     write (filter (fun r => negb (key_matches fileID systemID r))
              (contents db)
            ++ [bound_row fileID systemID m])%list db).
Proof.
  intros Hfit. unfold setFileData, bind at 1, SQLPreparedStmt,
    sqlite3_prepare_v2.
  unfold fits_table in Hfit. rewrite Hfit. reflexivity.
Qed.

(** A write whose catalog is empty or of another length than the table's
    does not prepare. *)
Lemma setFileData_misfit
    (fileID systemID : string) (m : MetaDataMap) (db : sqlite3) :
  fits_table m = false ->
  setFileData fileID systemID m db
  = (Thrown (DBException "Error creating prepared stmt"), db).
Proof.
  intros Hfit. unfold setFileData, bind at 1, SQLPreparedStmt,
    sqlite3_prepare_v2.
  unfold fits_table in Hfit. rewrite Hfit. reflexivity.
Qed.

(** Whatever record is written, reading its key back throws. *)
Lemma getFileData_after_setFileData
    (fileID systemID : string) (m : MetaDataMap) (db : sqlite3) :
  fst (setFileData fileID systemID m db) = Returned tt ->
  fst (getFileData fileID systemID (snd (setFileData fileID systemID m db)))
  = Thrown (DBException "Step failed!").
Proof.
  intros Hret. destruct (fits_table m) eqn:Hfit.
  - rewrite (setFileData_spec fileID systemID m db Hfit). simpl.
    rewrite getFileData_present; [reflexivity|].
    rewrite contents_write, existsb_app.
    assert (Hkey : key_matches fileID systemID (bound_row fileID systemID m)
                   = true)
      by (unfold key_matches; simpl; now rewrite !String.eqb_refl).
    simpl existsb at 2. rewrite Hkey. now rewrite orb_true_r.
  - rewrite (setFileData_misfit fileID systemID m db Hfit) in Hret.
    discriminate.
Qed.

End ReadWrite.

(** C2, on a table that has the row.  [getFileData] for the key of a row
    that a scan has stored throws at its step check, and for a key without
    a row it does not stop at the step check but at the first column it
    reads. *)
Theorem getFileData_throws_on_existing_row :
  existsb (key_matches "./a.nes" "nes") (contents scanned_db) = true
  /\ @getFileData sample_declarations "./a.nes" "nes" scanned_db
     = (Thrown (DBException "Step failed!"), scanned_db)
  /\ existsb (key_matches "./c.nes" "nes") (contents scanned_db) = false
  /\ @getFileData sample_declarations "./c.nes" "nes" scanned_db
     = (Thrown logic_error, scanned_db).
Proof. repeat split; reflexivity. Qed.

(** C5, on a record with a name.  [setFileData] stores the record, and
    [getFileData] for the same key then throws instead of returning it. *)
Theorem setFileData_then_getFileData_throws :
  let written :=
    @setFileData sample_declarations "./a.nes" "nes" a_nes_metadata empty_db in
  fst written = Returned tt
  /\ map (fun r => (fileid r, systemid r, filetype r)) (durable (snd written))
     = [("./a.nes", "nes", 0%Z)]
  /\ fst (@getFileData sample_declarations "./a.nes" "nes" (snd written))
     = Thrown (DBException "Step failed!").
Proof. repeat split; reflexivity. Qed.

(** ** The importer *)

Section Importer.
Context {D : Declarations}.

Lemma node_metadata_type
    (relativeTo : path) (t : MetaDataListType) (fileNode : xml_node) :
  getType (node_metadata relativeTo t fileNode) = t.
Proof.
  unfold node_metadata.
  assert (H : forall decls m,
             getType (fold_left
               (fun mdl d =>
                  match child fileNode (key d) with
                  | Some md =>
                      MetaDataMap_set mdl (key d)
                        match type d with
                        | MD_IMAGE_PATH =>
                            generic_string
                              (resolvePath (node_text md) relativeTo true)
                        | _ => node_text md
                        end
                  | None => mdl
                  end) decls m) = getType m).
  { induction decls as [|d decls IH]; intros m; simpl; [reflexivity|].
    rewrite IH. now destruct (child fileNode (key d)). }
  apply H.
Qed.

(** A record with a name has a field, so its statement prepares as soon as
    its catalog is as long as the table's. *)
Lemma node_metadata_fits
    (relativeTo : path) (t : MetaDataListType) (fileNode : xml_node) :
  MetaDataMap_get (node_metadata relativeTo t fileNode) "name" <> "" ->
  length (getMDDMap t) = length (getMDDMap GAME_METADATA) ->
  fits_table (node_metadata relativeTo t fileNode) = true.
Proof.
  intros Hname Hlen. apply fits_table_true.
  unfold getMDD. rewrite node_metadata_type. split; [|exact Hlen].
  intros Hnil. apply Hname.
  unfold node_metadata, getMDD, MetaDataMap_new, MetaDataMap_get. simpl.
  rewrite Hnil. reflexivity.
Qed.

(** A node whose file is not there is counted, logged and left behind. *)
Lemma import_nodes_missing
    (system : SystemData) (fs : filesystem) (t : MetaDataListType)
    (n : xml_node) (rest : list xml_node) (report : import_report)
    (db : sqlite3) :
  fs (node_path (getStartPath system) n) = Some false ->
  import_nodes system fs t (n :: rest) report db
  = import_nodes system fs t rest
      (mkReport (S (skipCount report))
         (warnings report ++ [node_path (getStartPath system) n])%list) db.
Proof.
  intros Hfs. simpl. unfold bind at 1, fs_exists. rewrite Hfs. reflexivity.
Qed.

(** A node whose file is there and whose name is set is written with
    [setFileData]. *)
Lemma import_nodes_present
    (system : SystemData) (fs : filesystem) (t : MetaDataListType)
    (n : xml_node) (rest : list xml_node) (report : import_report)
    (db : sqlite3) :
  fs (node_path (getStartPath system) n) = Some true ->
  MetaDataMap_get (node_metadata (getStartPath system) t n) "name" <> "" ->
  length (getMDDMap t) = length (getMDDMap GAME_METADATA) ->
  import_nodes system fs t (n :: rest) report db
  = import_nodes system fs t rest report
      (snd (setFileData
              (pathToFileID_system (node_path (getStartPath system) n) system)
              (getName system)
              (node_metadata (getStartPath system) t n) db)).
Proof.
  intros Hfs Hname Hlen.
  assert (Hfit : fits_table (node_metadata (getStartPath system) t n) = true)
    by now apply node_metadata_fits.
  simpl. unfold bind at 1, fs_exists. rewrite Hfs.
  simpl. apply String.eqb_neq in Hname. rewrite Hname, andb_false_r.
  unfold bind at 1. now rewrite setFileData_spec.
Qed.

Lemma import_nodes_nil
    (system : SystemData) (fs : filesystem) (t : MetaDataListType)
    (report : import_report) (db : sqlite3) :
  import_nodes system fs t [] report db = (Returned report, db).
Proof. reflexivity. Qed.

(** A node whose file is there and whose name is set, but whose catalog
    does not fit the table: the write throws when its statement is
    prepared, and so does the import. *)
Lemma import_nodes_misfit
    (system : SystemData) (fs : filesystem) (t : MetaDataListType)
    (n : xml_node) (rest : list xml_node) (report : import_report)
    (db : sqlite3) :
  fs (node_path (getStartPath system) n) = Some true ->
  MetaDataMap_get (node_metadata (getStartPath system) t n) "name" <> "" ->
  fits_table (node_metadata (getStartPath system) t n) = false ->
  import_nodes system fs t (n :: rest) report db
  = (Thrown (DBException "Error creating prepared stmt"), db).
Proof.
  intros Hfs Hname Hfit.
  simpl. unfold bind at 1, fs_exists. rewrite Hfs.
  simpl. apply String.eqb_neq in Hname. rewrite Hname, andb_false_r.
  unfold bind at 1. now rewrite setFileData_misfit.
Qed.

(** Once the file is found, parsed and has its root node, the import is
    the loop over the game nodes followed by the loop over the folder
    nodes. *)
Lemma importXML_loaded
    (system : SystemData) (xml_path : string) (fs : filesystem)
    (load_file : xml_loader) (doc root : xml_node) (db : sqlite3) :
  fs xml_path = Some true ->
  load_file xml_path = Some doc ->
  child doc "gameList" = Some root ->
  importXML system xml_path fs load_file db
  = match import_nodes system fs GAME_METADATA
            (children_named root "game") (mkReport 0 []) db with
    | (Returned report, db') =>
        logged (import_nodes system fs FOLDER_METADATA
                  (children_named root "folder") report db')
    | (Thrown e, db') => (Thrown e, db')
    | (Unmodelled, db') => (Unmodelled, db')
    end.
Proof.
  intros Hxml Hload Hroot.
  unfold importXML. unfold bind at 1, fs_exists. rewrite Hxml.
  cbv beta iota delta [ret negb]. rewrite Hload, Hroot.
  unfold bind at 1.
  now destruct (import_nodes system fs GAME_METADATA
                  (children_named root "game") (mkReport 0 []) db)
    as [[report| |] db'].
Qed.

(** The gamelist file is there and parses, and its game and folder nodes
    are two: one whose path is on disk, with a name and a catalog as long
    as the table's, and one whose path is not.  Then [importXML] returns;
    it has logged one warning, for the path that is not there; and the
    database is what one [setFileData] of the record of the node that is
    there makes of the one it started from: the row under that key
    replaced, every other row as it was. *)
Lemma importXML_one_written_one_skipped
    (system : SystemData) (xml_path : string) (fs : filesystem)
    (load_file : xml_loader) (doc root : xml_node) (db : sqlite3)
    (there gone : MetaDataListType * xml_node) :
  fs xml_path = Some true ->
  load_file xml_path = Some doc ->
  child doc "gameList" = Some root ->
  file_nodes root = [there; gone] \/ file_nodes root = [gone; there] ->
  fs (node_path (getStartPath system) (snd there)) = Some true ->
  fs (node_path (getStartPath system) (snd gone)) = Some false ->
  MetaDataMap_get
    (node_metadata (getStartPath system) (fst there) (snd there)) "name"
    <> "" ->
  length (getMDDMap (fst there)) = length (getMDDMap GAME_METADATA) ->
  let id :=
    pathToFileID_system (node_path (getStartPath system) (snd there)) system in
  let record := node_metadata (getStartPath system) (fst there) (snd there) in
  importXML system xml_path fs load_file db
  = (Returned [node_path (getStartPath system) (snd gone)],
     snd (setFileData id (getName system) record db))
  /\ contents (snd (setFileData id (getName system) record db))
     = (filter (fun r => negb (key_matches id (getName system) r))
          (contents db)
        ++ [bound_row id (getName system) record])%list.
Proof.
  intros Hxml Hload Hroot Hnodes Hthere Hgone Hname Hlen id record.
  split.
  - rewrite (importXML_loaded system xml_path fs load_file doc root db
               Hxml Hload Hroot).
    unfold file_nodes in Hnodes.
    destruct there as [kt nt], gone as [kg ng].
    cbv beta iota delta [fst snd] in *.
    destruct (children_named root "game") as [|g1 [|g2 [|g3 gs]]];
      destruct (children_named root "folder") as [|f1 [|f2 [|f3 fl]]];
      simpl in Hnodes;
      destruct Hnodes as [Hnodes|Hnodes]; try discriminate Hnodes;
      injection Hnodes as <- <- <- <-;
      repeat (first
        [ rewrite (import_nodes_present _ _ _ _ _ _ _ Hthere Hname Hlen)
        | rewrite (import_nodes_missing _ _ _ _ _ _ _ Hgone)
        | rewrite import_nodes_nil
        | progress cbv beta iota ]);
      reflexivity.
  - unfold record. rewrite setFileData_spec.
    + simpl. apply contents_write.
    + now apply node_metadata_fits.
Qed.

End Importer.

(** C8, on a gamelist whose node on disk is a folder.  The document has
    two nodes: a game whose path is not on disk and a folder whose path
    is.  [importXML] logs the game and comes to the folder, whose record
    it makes from the folder catalog; [setFileData] then builds an insert
    with one value per field of that catalog for a table that
    [createTables] has made from the game catalog, the statement does not
    prepare, and the import throws without having written a record. *)
Theorem importXML_throws_on_a_folder_on_disk :
  option_map
    (fun root =>
       map (fun tn => (fst tn, node_path (getStartPath nes) (snd tn),
                       node_present sub_on_disk (getStartPath nes) tn))
         (file_nodes root))
    (child folder_gamelist_doc "gameList")
  = Some [(GAME_METADATA, "/roms/nes/gone.nes", false);
          (FOLDER_METADATA, "/roms/nes/sub", true)]
  /\ length (@getMDDMap sample_declarations FOLDER_METADATA)
     <> length (@getMDDMap sample_declarations GAME_METADATA)
  /\ @importXML sample_declarations nes "/roms/nes/gamelist.xml"
       sub_on_disk (fun _ => Some folder_gamelist_doc) empty_db
     = (Thrown (DBException "Error creating prepared stmt"), empty_db).
Proof. split; [reflexivity|]. split; [discriminate|reflexivity]. Qed.

Lemma importXML_one_written_one_skipped_witness :
  @importXML sample_declarations nes "/roms/nes/gamelist.xml"
    only_a_nes gamelist_loader empty_db
  = (Returned ["/roms/nes/gone.nes"],
     mkDB [@bound_row sample_declarations "./a.nes" "'nes'" a_nes_metadata]
       None).
Proof.
  assert (Hroot : child gamelist_doc "gameList"
                  = Some (element "gameList" ""
                            [element "game" ""
                               [element "path" "./a.nes" [];
                                element "name" "A" []];
                             element "game" ""
                               [element "path" "./gone.nes" [];
                                element "name" "Gone" []]]))
    by reflexivity.
  refine (eq_trans
    (proj1 (@importXML_one_written_one_skipped sample_declarations
       nes "/roms/nes/gamelist.xml" only_a_nes gamelist_loader
       gamelist_doc _ empty_db
       (GAME_METADATA,
        element "game" ""
          [element "path" "./a.nes" []; element "name" "A" []])
       (GAME_METADATA,
        element "game" ""
          [element "path" "./gone.nes" []; element "name" "Gone" []])
       eq_refl eq_refl Hroot (or_introl eq_refl) eq_refl eq_refl _ eq_refl))
    _).
  - simpl. discriminate.
  - reflexivity.
Defined.

(* ------------------------------------------------------------------ *)
(** * Further properties *)

(** ** What a scan visits and inserts *)

Lemma write_contents (db : sqlite3) : write (contents db) db = db.
Proof.
  destruct db as [d [t|]]; reflexivity.
Qed.

Lemma write_write (t t' : table) (db : sqlite3) :
  write t' (write t db) = write t' db.
Proof.
  destruct db as [d [t0|]]; reflexivity.
Qed.

Section ScanPaths.
Context {D : Declarations}.

Lemma insert_rows_app (v : string) (relativeTo : path)
    (a b : list path) (t : table) :
  insert_rows v relativeTo (a ++ b) t
  = insert_rows v relativeTo b (insert_rows v relativeTo a t).
Proof. unfold insert_rows. apply fold_left_app. Qed.

Lemma add_file_table
    (p relativeTo : path) (ft : Z) (stmt : sqlite3_stmt) (db : sqlite3) :
  add_file (pathToFileID p relativeTo) ft stmt db
  = (Returned tt, scan_state stmt relativeTo [p] db).
Proof.
  rewrite add_file_spec. unfold scan_state, step_insert_or_ignore, insert_rows.
  simpl. destruct (existsb _ (contents db)); simpl; [|reflexivity].
  now rewrite write_contents.
Qed.

Lemma scan_state_nil (stmt : sqlite3_stmt) (relativeTo : path) (db : sqlite3) :
  scan_state stmt relativeTo [] db = db.
Proof. unfold scan_state. simpl. apply write_contents. Qed.

Lemma scan_state_app (stmt : sqlite3_stmt) (relativeTo : path)
    (a b : list path) (db : sqlite3) :
  scan_state stmt relativeTo b (scan_state stmt relativeTo a db)
  = scan_state stmt relativeTo (a ++ b) db.
Proof.
  unfold scan_state. now rewrite contents_write, write_write, insert_rows_app.
Qed.

End ScanPaths.

Section ScanWalk.
Context {D : Declarations}.

(** The scanner, run on whatever sits at [start_dir]: it returns whether
    there is a matching file below when every directory can be opened and
    throws otherwise, and in both cases it has stepped its statement for
    the paths it visited, in order. *)
Lemma populate_recursive_paths
    (what : dirent) (relativeTo : path) (extensions : list string)
    (start_dir : path) (stmt : sqlite3_stmt) (db : sqlite3) :
  populate_recursive relativeTo extensions start_dir what stmt db
  = ((if openable what then Returned (has_match extensions what)
      else Thrown filesystem_error),
     scan_state stmt relativeTo (scan_paths extensions start_dir what) db).
Proof.
  revert start_dir db.
  induction what as [name | name readable entries IH] using dirent_nested_ind;
    intros start_dir db.
  - simpl. now rewrite scan_state_nil.
  - destruct readable; [|simpl; now rewrite scan_state_nil].
    cbn [populate_recursive].
    match goal with
    | |- context [bind (?loop entries false) _] => set (each := loop)
    end.
    assert (Hloop : forall has db0,
      each entries has db0
      = ((if forallb visitable entries
          then Returned (has || existsb (has_match extensions) entries)
          else Thrown filesystem_error),
         scan_state stmt relativeTo
           (walk (fun e => visited_paths extensions
                             (path_append start_dir (dirent_name e)) e)
              entries) db0)).
    { clear db. induction IH as [| entry dir' Hentry _ IHdir]; intros has db0.
      - simpl. now rewrite scan_state_nil, orb_false_r.
      - destruct entry as [fname | dname dreadable dentries].
        + unfold each; cbn [forallb existsb walk visitable has_match
                            visited_paths dirent_name andb]; fold each.
          destruct (has_extension extensions (extension fname)); cbn [negb].
          * unfold bind. rewrite add_file_table. rewrite IHdir.
            rewrite scan_state_app. simpl orb.
            now rewrite orb_true_r.
          * rewrite IHdir. reflexivity.
        + unfold each; cbn [forallb existsb walk dirent_name]; fold each.
          unfold bind at 1. rewrite Hentry.
          cbn [openable scan_paths].
          destruct (visitable (directory dname dreadable dentries)) eqn:Hv.
          * cbn [andb]. rewrite IHdir, scan_state_app.
            destruct (has_match extensions (directory dname dreadable dentries));
              destruct (forallb visitable dir'); cbn [orb];
              rewrite ?orb_true_r; reflexivity.
          * cbn [andb]. now rewrite app_nil_r. }
    unfold bind at 1. rewrite Hloop.
    cbn [openable visitable andb scan_paths visited_paths has_match].
    destruct (forallb visitable entries); cbn [andb orb].
    + destruct (existsb (has_match extensions) entries).
      * unfold bind. rewrite add_file_table, scan_state_app. reflexivity.
      * now rewrite app_nil_r.
    + now rewrite app_nil_r.
Qed.

End ScanWalk.

(** ** Rows inserted for a list of paths *)

Section InsertRows.
Context {D : Declarations}.

Lemma key_matches_bare_row (f v : string) (ft : Z) :
  key_matches f v (bare_row f v ft) = true.
Proof. unfold key_matches. simpl. now rewrite !String.eqb_refl. Qed.

Lemma insert_rows_cons (v : string) (relativeTo : path)
    (p : path) (paths : list path) (t : table) :
  insert_rows v relativeTo (p :: paths) t
  = insert_rows v relativeTo paths (insert_rows v relativeTo [p] t).
Proof. reflexivity. Qed.

(** A key that is in the table stays in it. *)
Lemma insert_rows_keeps_key (v : string) (relativeTo : path)
    (paths : list path) (t : table) (f s : string) :
  existsb (key_matches f s) t = true ->
  existsb (key_matches f s) (insert_rows v relativeTo paths t) = true.
Proof.
  revert t; induction paths as [|p paths IH]; intros t Ht; [exact Ht|].
  rewrite insert_rows_cons. apply IH. unfold insert_rows. simpl.
  destruct (existsb (key_matches (pathToFileID p relativeTo) v) t);
    [exact Ht|].
  rewrite existsb_app, Ht. reflexivity.
Qed.

(** Every path has its key in the table afterwards. *)
Lemma insert_rows_present (v : string) (relativeTo : path)
    (paths : list path) (t : table) (p : path) :
  In p paths ->
  existsb (key_matches (pathToFileID p relativeTo) v)
    (insert_rows v relativeTo paths t) = true.
Proof.
  revert t; induction paths as [|p0 paths IH]; intros t Hin; [destruct Hin|].
  rewrite insert_rows_cons. destruct Hin as [->|Hin]; [|now apply IH].
  apply insert_rows_keeps_key. unfold insert_rows. simpl.
  destruct (existsb (key_matches (pathToFileID p relativeTo) v) t) eqn:E;
    [exact E|].
  rewrite existsb_app. simpl. rewrite key_matches_bare_row.
  now rewrite orb_true_r.
Qed.

(** Paths whose keys are all there change nothing. *)
Lemma insert_rows_all_present (v : string) (relativeTo : path)
    (paths : list path) (t : table) :
  (forall p, In p paths ->
     existsb (key_matches (pathToFileID p relativeTo) v) t = true) ->
  insert_rows v relativeTo paths t = t.
Proof.
  induction paths as [|p paths IH]; intros H; [reflexivity|].
  rewrite insert_rows_cons.
  assert (E : insert_rows v relativeTo [p] t = t).
  { unfold insert_rows. simpl. now rewrite (H p (or_introl eq_refl)). }
  rewrite E. apply IH. intros q Hq. apply H. now right.
Qed.

Lemma insert_rows_idempotent (v : string) (relativeTo : path)
    (paths : list path) (t : table) :
  insert_rows v relativeTo paths (insert_rows v relativeTo paths t)
  = insert_rows v relativeTo paths t.
Proof.
  apply insert_rows_all_present. intros p Hp.
  now apply insert_rows_present.
Qed.

(** The rows of the table stay where they are, and the rows after them
    are bare rows for paths whose key was not there. *)
Lemma insert_rows_extends (v : string) (relativeTo : path)
    (paths : list path) (t : table) :
  exists added,
    insert_rows v relativeTo paths t = (t ++ added)%list
    /\ Forall
         (fun r =>
            exists p, In p paths
              /\ r = bare_row (pathToFileID p relativeTo) v FileType_GAME
              /\ existsb (key_matches (pathToFileID p relativeTo) v) t = false)
         added.
Proof.
  revert t; induction paths as [|p paths IH]; intros t.
  - exists []. split; [now rewrite app_nil_r|constructor].
  - rewrite insert_rows_cons. unfold insert_rows at 2. simpl.
    destruct (existsb (key_matches (pathToFileID p relativeTo) v) t) eqn:E.
    + destruct (IH t) as (added & Heq & Hall). exists added.
      split; [exact Heq|].
      eapply Forall_impl; [|exact Hall].
      intros r (q & Hq & Hr & Hk). exists q. auto.
    + destruct (IH (t ++ [bare_row (pathToFileID p relativeTo) v FileType_GAME])%list)
        as (added & Heq & Hall).
      exists (bare_row (pathToFileID p relativeTo) v FileType_GAME :: added).
      split; [now rewrite Heq, <- app_assoc|].
      constructor.
      * exists p. auto.
      * eapply Forall_impl; [|exact Hall].
        intros r (q & Hq & Hr & Hk). exists q. repeat split; auto.
        rewrite existsb_app in Hk. now apply orb_false_iff in Hk.
Qed.

Lemma unique_keys_app_one (t : table) (r : row) :
  unique_keys t ->
  existsb (key_matches (fileid r) (systemid r)) t = false ->
  unique_keys (t ++ [r])%list.
Proof.
  unfold unique_keys. intros Hu Hk.
  rewrite map_app. simpl.
  apply NoDup_app; [exact Hu|constructor; [intros []|constructor]|].
  intros k Hin [<-|[]].
  apply in_map_iff in Hin. destruct Hin as (r' & Hkey & Hin).
  assert (Ht : existsb (key_matches (fileid r) (systemid r)) t = true).
  { apply existsb_exists. exists r'. split; [exact Hin|].
    injection Hkey as Hf Hs. unfold key_matches.
    now rewrite Hf, Hs, !String.eqb_refl. }
  congruence.
Qed.

Lemma insert_rows_unique (v : string) (relativeTo : path)
    (paths : list path) (t : table) :
  unique_keys t -> unique_keys (insert_rows v relativeTo paths t).
Proof.
  revert t; induction paths as [|p paths IH]; intros t Hu; [exact Hu|].
  rewrite insert_rows_cons. apply IH. unfold insert_rows. simpl.
  destruct (existsb (key_matches (pathToFileID p relativeTo) v) t) eqn:E;
    [exact Hu|].
  now apply unique_keys_app_one.
Qed.

End InsertRows.

(** ** Visited paths and matching paths *)

Lemma walk_in (f : dirent -> list path) (dir : list dirent) (q : path) :
  In q (walk f dir) -> exists e, In e dir /\ In q (f e).
Proof.
  induction dir as [|e dir IH]; simpl; [intros []|].
  intros Hin. apply in_app_or in Hin. destruct Hin as [Hin|Hin].
  - exists e. auto.
  - destruct (visitable e); [|destruct Hin].
    destruct (IH Hin) as (e' & He' & Hq). exists e'. auto.
Qed.

Lemma walk_all_visitable (f : dirent -> list path) (dir : list dirent) :
  forallb visitable dir = true -> walk f dir = flat_map f dir.
Proof.
  induction dir as [|e dir IH]; simpl; [reflexivity|].
  intros H. apply andb_true_iff in H. destruct H as [He Hdir].
  now rewrite He, IH.
Qed.

Lemma visited_paths_match
    (extensions : list string) (d : dirent) (p q : path) :
  In q (visited_paths extensions p d) ->
  In q (matching_files extensions p d) \/ In q (matching_dirs extensions p d).
Proof.
  revert p.
  induction d as [name | name readable entries IH] using dirent_nested_ind;
    intros p Hin.
  - left. exact Hin.
  - destruct readable; [|destruct Hin].
    cbn [visited_paths] in Hin. cbn [matching_files matching_dirs].
    apply in_app_or in Hin. destruct Hin as [Hin|Hin].
    + apply walk_in in Hin. destruct Hin as (e & He & Hq).
      rewrite Forall_forall in IH.
      destruct (IH e He _ Hq) as [Hf|Hd].
      * left. apply in_flat_map. exists e. auto.
      * right. apply in_or_app. right. apply in_flat_map. exists e. auto.
    + right. apply in_or_app. left.
      destruct (forallb visitable entries); simpl in Hin; [|destruct Hin].
      destruct (existsb (has_match extensions) entries); exact Hin.
Qed.

Lemma matching_paths_visited
    (extensions : list string) (d : dirent) (p q : path) :
  visitable d = true ->
  In q (matching_files extensions p d) \/ In q (matching_dirs extensions p d) ->
  In q (visited_paths extensions p d).
Proof.
  revert p.
  induction d as [name | name readable entries IH] using dirent_nested_ind;
    intros p Hv Hin.
  - destruct Hin as [Hin|[]]. exact Hin.
  - cbn [visitable] in Hv. apply andb_true_iff in Hv.
    destruct Hv as [-> Hall].
    cbn [visited_paths]. rewrite (walk_all_visitable _ _ Hall), Hall.
    cbn [matching_files matching_dirs andb] in Hin |- *.
    rewrite Forall_forall in IH. rewrite forallb_forall in Hall.
    apply in_or_app.
    destruct Hin as [Hin|Hin].
    + apply in_flat_map in Hin. destruct Hin as (e & He & Hq).
      left. apply in_flat_map. exists e. split; [exact He|].
      apply (IH e He _ (Hall e He)). now left.
    + apply in_app_or in Hin. destruct Hin as [Hin|Hin].
      * right. exact Hin.
      * apply in_flat_map in Hin. destruct Hin as (e & He & Hq).
        left. apply in_flat_map. exists e. split; [exact He|].
        apply (IH e He _ (Hall e He)). now right.
Qed.

Lemma flat_map_nil {A B} (f : A -> list B) (l : list A) :
  (forall a, In a l -> f a = []) -> flat_map f l = [].
Proof.
  induction l as [|a l IH]; intros H; simpl; [reflexivity|].
  rewrite (H a (or_introl eq_refl)). apply IH. intros b Hb. apply H. now right.
Qed.

Lemma no_match_no_paths (extensions : list string) (d : dirent) (p : path) :
  has_match extensions d = false ->
  matching_files extensions p d = [] /\ matching_dirs extensions p d = [].
Proof.
  revert p.
  induction d as [name | name readable entries IH] using dirent_nested_ind;
    intros p Hm.
  - simpl in *. now rewrite Hm.
  - cbn [has_match] in Hm. cbn [matching_files matching_dirs]. rewrite Hm.
    simpl app.
    assert (Hall : forall e, In e entries -> has_match extensions e = false).
    { intros e He. destruct (has_match extensions e) eqn:E; [|reflexivity].
      assert (Ht : existsb (has_match extensions) entries = true)
        by (apply existsb_exists; now exists e).
      congruence. }
    rewrite Forall_forall in IH.
    split; apply flat_map_nil; intros e He;
      apply (IH e He _ (Hall e He)).
Qed.

Lemma no_match_nothing_visited
    (extensions : list string) (d : dirent) (p : path) :
  has_match extensions d = false -> scan_paths extensions p d = [].
Proof.
  intros Hm. destruct (no_match_no_paths extensions d p Hm) as [Hf Hd].
  destruct d as [name|name readable entries]; [reflexivity|].
  unfold scan_paths.
  destruct (visited_paths extensions p (directory name readable entries))
    as [|q l] eqn:E; [reflexivity|].
  assert (Hq : In q (visited_paths extensions p (directory name readable entries)))
    by (rewrite E; now left).
  apply visited_paths_match in Hq. rewrite Hf, Hd in Hq.
  destruct Hq as [[]|[]].
Qed.

(** ** Scans as a whole *)

Section Scans.
Context {D : Declarations}.

(** A scan that gets to its transaction: its outcome tells whether every
    directory could be opened, and the table has the rows for the visited
    paths inserted. *)
Lemma addMissingFiles_scanned
    (system : SystemData) (root : dirent) (db : sqlite3) (v : string) :
  pending db = None ->
  classify_operand (getName system) = OperandText v ->
  addMissingFiles system root db
  = ((if openable root then Returned tt else Thrown filesystem_error),
     mkDB (insert_rows v (getStartPath system)
             (scan_paths (getExtensions system) (getStartPath system) root)
             (durable db)) None).
Proof.
  intros Hidle Hname.
  rewrite (addMissingFiles_commits system root db v Hidle Hname). cbv zeta.
  rewrite populate_recursive_paths. cbn [fst snd].
  unfold committed, scan_state. rewrite contents_write, contents_begun.
  cbn [bound_systemid]. now destruct (openable root).
Qed.

(** A scan that does not get to its transaction leaves the database as it
    was. *)
Lemma addMissingFiles_not_begun
    (system : SystemData) (root : dirent) (db : sqlite3) :
  pending db <> None
  \/ (forall v, classify_operand (getName system) <> OperandText v) ->
  snd (addMissingFiles system root db) = db.
Proof.
  intros H. unfold addMissingFiles. unfold bind at 1.
  unfold SQLPreparedStmt, sqlite3_prepare_v2.
  destruct (classify_operand (getName system)) as [v| |] eqn:Hc; simpl;
    try reflexivity.
  destruct H as [Hbusy|Hno]; [|now destruct (Hno v)].
  unfold bind at 1. now rewrite SQLTransaction_new_busy.
Qed.

Lemma updateExists_not_begun
    (system : SystemData) (fs : filesystem) (db : sqlite3) :
  pending db <> None
  \/ (forall v, classify_operand (getName system) <> OperandText v) ->
  snd (updateExists system fs db) = db.
Proof.
  intros H. unfold updateExists. unfold bind at 1.
  unfold SQLPreparedStmt, sqlite3_prepare_v2.
  destruct (classify_operand (getName system)) as [v| |] eqn:Hc; simpl;
    try reflexivity.
  destruct H as [Hbusy|Hno]; [|now destruct (Hno v)].
  unfold bind at 1. simpl.
  unfold bind at 1. now rewrite SQLTransaction_new_busy.
Qed.

(** The two ways a call can go. *)
Lemma begun_or_not (system : SystemData) (db : sqlite3) :
  (pending db <> None
   \/ (forall v, classify_operand (getName system) <> OperandText v))
  \/ (exists v, pending db = None
                /\ classify_operand (getName system) = OperandText v).
Proof.
  destruct (pending db) as [t|] eqn:Hp; [left; left; discriminate|].
  destruct (classify_operand (getName system)) as [v| |] eqn:Hc.
  - right. exists v. now split.
  - left. right. discriminate.
  - left. right. discriminate.
Qed.

(** X1.  [populate_recursive] returns [true] exactly when there is a file
    with an allowed extension somewhere below the directory it is given,
    provided that directory and every directory below it can be opened;
    when one of them cannot, or when it is given a regular file, it throws
    the filesystem's error.  A scan that gets to its transaction returns
    or throws accordingly. *)
Theorem populate_recursive_outcome
    (system : SystemData) (relativeTo : path) (extensions : list string)
    (start_dir : path) (what : dirent) (stmt : sqlite3_stmt) (db : sqlite3) :
  fst (populate_recursive relativeTo extensions start_dir what stmt db)
  = (if openable what then Returned (has_match extensions what)
     else Thrown filesystem_error)
  /\ (pending db = None ->
      (exists v, classify_operand (getName system) = OperandText v) ->
      fst (addMissingFiles system what db)
      = if openable what then Returned tt else Thrown filesystem_error).
Proof.
  split.
  - now rewrite populate_recursive_paths.
  - intros Hidle (v & Hname).
    now rewrite (addMissingFiles_scanned system what db v Hidle Hname).
Qed.

(** X2.  A scan of a tree that holds no file with an allowed extension, an
    empty root among them, leaves the database exactly as it was, whether
    it returns or throws. *)
Theorem scan_without_match_changes_nothing
    (system : SystemData) (root : dirent) (db : sqlite3) :
  has_match (getExtensions system) root = false ->
  pending db = None ->
  snd (addMissingFiles system root db) = db.
Proof.
  intros Hm Hidle.
  destruct (begun_or_not system db) as [Hnot|(v & _ & Hname)].
  - now apply addMissingFiles_not_begun.
  - rewrite (addMissingFiles_scanned system root db v Hidle Hname).
    rewrite no_match_nothing_visited by exact Hm.
    destruct db as [d p]. simpl in *. now subst p.
Qed.

(** X3.  When the root and every directory below it can be opened, a scan
    returns, and afterwards the table has a row for every file with an
    allowed extension and for every directory below which there is one,
    the root included, under the identifier of its path.  The rows that
    were there are still there, and every other row is the bare game row
    of such a path. *)
Theorem scan_stores_every_match
    (system : SystemData) (root : dirent) (db : sqlite3) (v : string) :
  pending db = None ->
  classify_operand (getName system) = OperandText v ->
  openable root = true ->
  let relativeTo := getStartPath system in
  let extensions := getExtensions system in
  let found q :=
    In q (matching_files extensions relativeTo root)
    \/ In q (matching_dirs extensions relativeTo root) in
  let after := durable (snd (addMissingFiles system root db)) in
  fst (addMissingFiles system root db) = Returned tt
  /\ (forall q, found q ->
        existsb (key_matches (pathToFileID q relativeTo) v) after = true)
  /\ (forall r, In r (durable db) -> In r after)
  /\ (forall r, In r after ->
        In r (durable db)
        \/ exists q, found q
             /\ r = bare_row (pathToFileID q relativeTo) v FileType_GAME).
Proof.
  intros Hidle Hname Hopen relativeTo extensions found after.
  unfold after. clear after.
  rewrite (addMissingFiles_scanned system root db v Hidle Hname).
  rewrite Hopen. cbn [fst snd durable].
  assert (Hroot : scan_paths extensions relativeTo root
                  = visited_paths extensions relativeTo root
                  /\ visitable root = true).
  { destruct root; [discriminate|]. now split. }
  destruct Hroot as [Hpaths Hvis].
  fold relativeTo extensions. rewrite Hpaths.
  split; [reflexivity|]. split; [|split].
  - intros q Hq. apply insert_rows_present.
    now apply matching_paths_visited.
  - intros r Hr.
    destruct (insert_rows_extends v relativeTo
                (visited_paths extensions relativeTo root) (durable db))
      as (added & -> & _).
    apply in_or_app. now left.
  - intros r Hr.
    destruct (insert_rows_extends v relativeTo
                (visited_paths extensions relativeTo root) (durable db))
      as (added & Heq & Hall).
    rewrite Heq in Hr. apply in_app_or in Hr.
    destruct Hr as [Hr|Hr]; [now left|right].
    rewrite Forall_forall in Hall.
    destruct (Hall r Hr) as (q & Hq & -> & _).
    exists q. split; [|reflexivity].
    now apply visited_paths_match.
Qed.

(** X4.  Scanning again changes nothing: for a system whose name the
    engine reads as a literal or rejects, a second [addMissingFiles] over
    the same tree has the outcome of the first and leaves the database the
    first one left. *)
Theorem rescan_changes_nothing
    (system : SystemData) (root : dirent) (db : sqlite3) :
  classify_operand (getName system) <> OperandOther ->
  addMissingFiles system root (snd (addMissingFiles system root db))
  = addMissingFiles system root db.
Proof.
  intros _.
  destruct (begun_or_not system db) as [Hnot|(v & Hidle & Hname)].
  - now rewrite (addMissingFiles_not_begun system root db Hnot).
  - rewrite (addMissingFiles_scanned system root db v Hidle Hname).
    cbn [snd].
    match goal with
    | |- addMissingFiles system root ?db1 = _ =>
        rewrite (addMissingFiles_scanned system root db1 v eq_refl Hname)
    end.
    cbn [durable]. now rewrite insert_rows_idempotent.
Qed.

(** X5.  A transaction does not outlive the operation that began it:
    called on a handle with no transaction open, [addMissingFiles] and
    [updateExists] leave none open, whatever their outcome. *)
Theorem no_transaction_left_open
    (system : SystemData) (root : dirent) (fs : filesystem) (db : sqlite3) :
  pending db = None ->
  pending (snd (addMissingFiles system root db)) = None
  /\ pending (snd (updateExists system fs db)) = None.
Proof.
  intros Hidle.
  destruct (begun_or_not system db) as [Hnot|(v & _ & Hname)].
  - now rewrite (addMissingFiles_not_begun system root db Hnot),
      (updateExists_not_begun system fs db Hnot).
  - rewrite (addMissingFiles_scanned system root db v Hidle Hname).
    rewrite (updateExists_commits system fs db v Hidle Hname).
    split; reflexivity.
Qed.

End Scans.

Lemma scan_without_match_changes_nothing_witness :
  has_match (getExtensions nes) nes_root_no_roms = false
  /\ snd (@addMissingFiles sample_declarations nes nes_root_no_roms scanned_db)
     = scanned_db.
Proof.
  assert (Hm : has_match (getExtensions nes) nes_root_no_roms = false)
    by reflexivity.
  split; [exact Hm|].
  exact (@scan_without_match_changes_nothing sample_declarations
           nes nes_root_no_roms scanned_db Hm eq_refl).
Defined.

Lemma scan_stores_every_match_witness :
  openable nes_root = true
  /\ existsb (key_matches (pathToFileID "/roms/nes/sub/b.nes" "/roms/nes") "nes")
       (durable (snd (@addMissingFiles sample_declarations nes nes_root
                        empty_db))) = true
  /\ @bare_row sample_declarations "./sub/b.nes" "nes" 1
     = mkRow "./sub/b.nes" "nes" 1 None
         [None; None; None; Some "0.0"; None; Some "0"].
Proof.
  assert (Hopen : openable nes_root = true) by reflexivity.
  split; [exact Hopen|]. split; [|reflexivity].
  apply (proj1 (proj2 (@scan_stores_every_match sample_declarations
                         nes nes_root empty_db "nes" eq_refl eq_refl Hopen))).
  left. simpl. right. left. reflexivity.
Defined.

Lemma rescan_changes_nothing_witness :
  @classify_operand sample_declarations (getName nes) <> OperandOther
  /\ @addMissingFiles sample_declarations nes nes_root scanned_db
     = (Returned tt, scanned_db).
Proof.
  assert (Hc : @classify_operand sample_declarations (getName nes)
               <> OperandOther) by discriminate.
  split; [exact Hc|].
  unfold scanned_db.
  rewrite (@rescan_changes_nothing sample_declarations nes nes_root empty_db Hc).
  reflexivity.
Defined.

Lemma no_transaction_left_open_witness :
  pending empty_db = None
  /\ pending (snd (@addMissingFiles sample_declarations nes nes_root_locked
                     empty_db)) = None.
Proof.
  split; [reflexivity|].
  exact (proj1 (@no_transaction_left_open sample_declarations
                  nes nes_root_locked only_a_nes empty_db eq_refl)).
Defined.

(** ** Writes by key *)

Lemma filter_key_of_filtered (f s : string) (t : table) :
  filter (key_matches f s)
    (filter (fun r => negb (key_matches f s r)) t) = [].
Proof.
  induction t as [|r t IH]; simpl; [reflexivity|].
  destruct (key_matches f s r) eqn:E; simpl; [exact IH|].
  now rewrite E.
Qed.

Lemma filter_other_keys_idempotent (f s : string) (t : table) :
  filter (fun r => negb (key_matches f s r))
    (filter (fun r => negb (key_matches f s r)) t)
  = filter (fun r => negb (key_matches f s r)) t.
Proof.
  induction t as [|r t IH]; simpl; [reflexivity|].
  destruct (key_matches f s r) eqn:E; simpl; [exact IH|].
  now rewrite E, IH.
Qed.

Section Writes.
Context {D : Declarations}.

Lemma key_matches_bound_row (f s : string) (m : MetaDataMap) :
  key_matches f s (bound_row f s m) = true.
Proof. unfold key_matches. simpl. now rewrite !String.eqb_refl. Qed.

Lemma setFileData_replaces
    (fileID systemID : string) (m : MetaDataMap) (db : sqlite3) :
  fits_table m = true ->
  setFileData fileID systemID m db
  = (Returned tt,
     write (replace_row (bound_row fileID systemID m) (contents db)) db).
Proof. intros Hfit. now rewrite setFileData_spec. Qed.

(** X6.  Writing a key twice leaves what the second write alone would
    have left: one row under the key, the one bound last, after the rows
    of the other keys, which are as they were. *)
Theorem setFileData_last_write_wins
    (fileID systemID : string) (m1 m2 : MetaDataMap) (db : sqlite3) :
  fits_table m1 = true ->
  fits_table m2 = true ->
  let twice :=
    snd (setFileData fileID systemID m2
           (snd (setFileData fileID systemID m1 db))) in
  twice = snd (setFileData fileID systemID m2 db)
  /\ filter (key_matches fileID systemID) (contents twice)
     = [bound_row fileID systemID m2]
  /\ filter (fun r => negb (key_matches fileID systemID r)) (contents twice)
     = filter (fun r => negb (key_matches fileID systemID r)) (contents db).
Proof.
  intros H1 H2. cbv zeta.
  rewrite (setFileData_replaces fileID systemID m1 db H1). cbn [snd].
  rewrite !(setFileData_replaces fileID systemID m2 _ H2). cbn [snd].
  rewrite contents_write, write_write.
  assert (E : replace_row (bound_row fileID systemID m2)
                (replace_row (bound_row fileID systemID m1) (contents db))
              = replace_row (bound_row fileID systemID m2) (contents db)).
  { unfold replace_row. cbn [fileid systemid bound_row].
    rewrite filter_app, filter_other_keys_idempotent. simpl.
    rewrite key_matches_bound_row. simpl. now rewrite app_nil_r. }
  rewrite E. split; [reflexivity|].
  rewrite contents_write. unfold replace_row. cbn [fileid systemid bound_row].
  rewrite !filter_app, filter_key_of_filtered, filter_other_keys_idempotent.
  simpl. rewrite key_matches_bound_row. simpl.
  split; [reflexivity|apply app_nil_r].
Qed.

(** X7.  [setFileData] binds one value per declaration of the catalog of
    the metadata it is given, into a table that [createTables] has made
    from the game catalog: it returns exactly when that catalog is not
    empty and is as long as the game catalog, and otherwise throws when
    its statement is prepared and leaves the database as it was. *)
Theorem setFileData_needs_a_catalog_of_the_tables_length
    (fileID systemID : string) (m : MetaDataMap) (db : sqlite3) :
  (fst (setFileData fileID systemID m db) = Returned tt
   <-> getMDD m <> []
       /\ length (getMDD m) = length (getMDDMap GAME_METADATA))
  /\ (fst (setFileData fileID systemID m db) <> Returned tt ->
      setFileData fileID systemID m db
      = (Thrown (DBException "Error creating prepared stmt"), db)).
Proof.
  destruct (fits_table m) eqn:Hfit.
  - rewrite (setFileData_replaces fileID systemID m db Hfit). cbn [fst].
    split; [|congruence].
    split; [intros _; now apply fits_table_true|reflexivity].
  - rewrite (setFileData_misfit fileID systemID m db Hfit). cbn [fst].
    split; [|reflexivity].
    split; [discriminate|].
    intros H. apply fits_table_true in H. congruence.
Qed.

End Writes.

Lemma setFileData_last_write_wins_witness :
  @fits_table sample_declarations a_nes_metadata = true
  /\ map (fun r => nth 0 (metadata r) None)
       (contents
          (snd (@setFileData sample_declarations "./a.nes" "nes"
                  (MetaDataMap_set a_nes_metadata "name" "B")
                  (snd (@setFileData sample_declarations "./a.nes" "nes"
                          a_nes_metadata scanned_db)))))
     = [None; None; None; Some "B"].
Proof.
  assert (H1 : @fits_table sample_declarations a_nes_metadata = true)
    by reflexivity.
  assert (H2 : @fits_table sample_declarations
                 (MetaDataMap_set a_nes_metadata "name" "B") = true)
    by reflexivity.
  split; [exact H1|].
  rewrite (proj1 (@setFileData_last_write_wins sample_declarations
                    "./a.nes" "nes" a_nes_metadata
                    (MetaDataMap_set a_nes_metadata "name" "B")
                    scanned_db H1 H2)).
  reflexivity.
Defined.

(** ** Refreshes on every outcome *)

Lemma Forall2_refl {A} (R : A -> A -> Prop) (l : list A) :
  (forall a, R a a) -> Forall2 R l l.
Proof. intros H. induction l; constructor; auto. Qed.

Lemma Forall2_trans {A} (R : A -> A -> Prop) (l1 l2 l3 : list A) :
  (forall a b c, R a b -> R b c -> R a c) ->
  Forall2 R l1 l2 -> Forall2 R l2 l3 -> Forall2 R l1 l3.
Proof.
  intros HR H12. revert l3.
  induction H12 as [|a b l1 l2 Hab _ IH]; intros l3 H23;
    inversion H23; subst; constructor; eauto.
Qed.

Lemma refresh_of_refl (v : string) (r : row) : refresh_of v r r.
Proof. now repeat split. Qed.

Lemma refresh_of_trans (v : string) (a b c : row) :
  refresh_of v a b -> refresh_of v b c -> refresh_of v a c.
Proof.
  intros [(Hf & Hs & Ht & Hm) Hab] [(Hf' & Hs' & Ht' & Hm') Hbc].
  split.
  - repeat split; congruence.
  - intros Hv. rewrite <- (Hab Hv). apply Hbc. congruence.
Qed.

Lemma refresh_rows_only_flags
    (fs : filesystem) (relativeTo : string) (stmt : sqlite3_stmt)
    (paths : list string) (db : sqlite3) :
  Forall2 (refresh_of (bound_systemid stmt))
    (contents db)
    (contents (snd (refresh_rows fs relativeTo stmt paths db))).
Proof.
  revert db; induction paths as [|p rest IH]; intros db.
  - simpl. apply Forall2_refl. apply refresh_of_refl.
  - destruct (fs (checked_path relativeTo p)) as [b|] eqn:Hp.
    + rewrite (refresh_rows_cons fs relativeTo stmt p rest db b Hp).
      eapply Forall2_trans; [apply refresh_of_trans| |apply IH].
      rewrite contents_write. apply Forall2_map_same.
      intros r _. unfold key_matches.
      destruct (String.eqb (fileid r) p); simpl;
        [|apply refresh_of_refl].
      destruct (String.eqb (systemid r) (bound_systemid stmt)) eqn:Hs;
        [|apply refresh_of_refl].
      apply String.eqb_eq in Hs.
      split; [now repeat split|congruence].
    + simpl. unfold bind at 1, fs_exists. rewrite Hp. simpl.
      apply Forall2_refl. apply refresh_of_refl.
Qed.

Section Refreshes.
Context {D : Declarations}.

(** A refresh on any outcome, seen row by row; [v] is the text the
    system's name stands for when it is a literal. *)
Lemma updateExists_rows
    (system : SystemData) (fs : filesystem) (db : sqlite3) (v : string) :
  (forall v', classify_operand (getName system) = OperandText v' -> v' = v) ->
  Forall2 (refresh_of v)
    (contents db) (contents (snd (updateExists system fs db))).
Proof.
  intros Hv.
  destruct (begun_or_not system db) as [Hnot|(v' & Hidle & Hname)].
  - rewrite (updateExists_not_begun system fs db Hnot).
    apply Forall2_refl. apply refresh_of_refl.
  - rewrite <- (Hv v' Hname).
    rewrite (updateExists_commits system fs db v' Hidle Hname). cbv zeta.
    cbn [snd]. rewrite contents_committed.
    assert (H := refresh_rows_only_flags fs (getStartPath system) (mkStmt v')
                   (select_fileids (mkStmt v') (begun db)) (begun db)).
    rewrite contents_begun in H.
    replace (contents db) with (durable db)
      by (unfold contents; now rewrite Hidle).
    exact H.
Qed.

Lemma updateExists_rows_any
    (system : SystemData) (fs : filesystem) (db : sqlite3) :
  exists v,
    (forall v', classify_operand (getName system) = OperandText v' -> v' = v)
    /\ Forall2 (refresh_of v)
         (contents db) (contents (snd (updateExists system fs db))).
Proof.
  destruct (classify_operand (getName system)) as [v| |] eqn:Hc.
  - exists v. split; [congruence|].
    apply updateExists_rows. rewrite Hc. congruence.
  - exists "". split; [discriminate|].
    apply updateExists_rows. rewrite Hc. discriminate.
  - exists "". split; [discriminate|].
    apply updateExists_rows. rewrite Hc. discriminate.
Qed.

(** X9.  Whatever its outcome, also when it throws half way, a refresh
    leaves the table with the same rows in the same places, each equal to
    what it was in every column but the existence flag: [updateExists]
    never adds a row, never deletes one and never touches a key, a kind or
    a metadata value. *)
Theorem updateExists_only_changes_flags
    (system : SystemData) (fs : filesystem) (db : sqlite3) :
  Forall2 same_but_fileexists
    (contents db) (contents (snd (updateExists system fs db))).
Proof.
  destruct (updateExists_rows_any system fs db) as (v & _ & H).
  eapply Forall2_impl; [|exact H]. now intros r r' [Hsame _].
Qed.

(** X10.  The last refresh decides: on a handle with no transaction open,
    for a name the engine reads as a literal, and with two filesystems
    whose status calls succeed on the rows of the system, refreshing
    against the first and then against the second gives what refreshing
    against the second alone gives.  In particular a refresh repeated
    against the same filesystem changes nothing. *)
Theorem updateExists_last_refresh_wins
    (system : SystemData) (fs1 fs2 : filesystem) (db : sqlite3) (v : string) :
  pending db = None ->
  classify_operand (getName system) = OperandText v ->
  (forall r, In r (durable db) -> systemid r = v ->
     fs1 (checked_path (getStartPath system) (fileid r)) <> None
     /\ fs2 (checked_path (getStartPath system) (fileid r)) <> None) ->
  updateExists system fs2 (snd (updateExists system fs1 db))
  = updateExists system fs2 db.
Proof.
  intros Hidle Hname Hfs.
  rewrite (updateExists_refreshes system fs1 db v Hidle Hname)
    by (intros r Hin Hs; apply (Hfs r Hin Hs)).
  cbn [snd].
  rewrite (updateExists_refreshes system fs2 db v Hidle Hname)
    by (intros r Hin Hs; apply (Hfs r Hin Hs)).
  rewrite updateExists_refreshes with (v := v);
    [|reflexivity|exact Hname|].
  - cbn [durable]. rewrite map_map. f_equal. f_equal.
    apply map_ext_in. intros r Hin. unfold refreshed.
    destruct (String.eqb (systemid r) v) eqn:Hs.
    + apply String.eqb_eq in Hs. destruct (Hfs r Hin Hs) as [H1 H2].
      destruct (fs1 _) as [b1|]; [|congruence].
      cbn [systemid fileid set_fileexists]. rewrite <- Hs at 1.
      rewrite String.eqb_refl.
      now destruct (fs2 _) as [b2|].
    + now rewrite Hs.
  - cbn [durable]. intros r' Hin Hs.
    apply in_map_iff in Hin. destruct Hin as (r & <- & Hin).
    unfold refreshed in Hs |- *.
    destruct (String.eqb (systemid r) v) eqn:Hv.
    + apply String.eqb_eq in Hv. destruct (Hfs r Hin Hv) as [H1 H2].
      destruct (fs1 _) as [b1|]; [|congruence]. exact H2.
    + apply String.eqb_neq in Hv. congruence.
Qed.

End Refreshes.

Lemma updateExists_last_refresh_wins_witness :
  pending scanned_db = None
  /\ map fileexists
       (durable
          (snd (@updateExists sample_declarations nes (fun _ => Some false)
                  (snd (@updateExists sample_declarations nes only_a_nes
                          scanned_db)))))
     = [Some 0%Z; Some 0%Z; Some 0%Z; Some 0%Z].
Proof.
  split; [reflexivity|].
  rewrite (@updateExists_last_refresh_wins sample_declarations nes
             only_a_nes (fun _ => Some false) scanned_db "nes"
             eq_refl eq_refl).
  - reflexivity.
  - intros r _ _. split; discriminate.
Defined.

(** ** Imports of any length *)

Section Imports.
Context {D : Declarations}.

(** The loop of [importXML] over the nodes of one tag, when the status of
    every path can be read and every node on disk is well formed: the
    nodes that are not on disk are counted and logged in order, the others
    written in order. *)
Lemma import_nodes_all
    (system : SystemData) (fs : filesystem) (t : MetaDataListType)
    (nodes : list xml_node) (report : import_report) (db : sqlite3) :
  (forall n, In n nodes ->
     fs (node_path (getStartPath system) n) <> None) ->
  (forall n, In n nodes ->
     fs (node_path (getStartPath system) n) = Some true ->
     MetaDataMap_get (node_metadata (getStartPath system) t n) "name" <> ""
     /\ length (getMDDMap t) = length (getMDDMap GAME_METADATA)) ->
  let typed := map (pair t) nodes in
  let gone :=
    filter (fun tn => negb (node_present fs (getStartPath system) tn)) typed in
  let there := filter (node_present fs (getStartPath system)) typed in
  import_nodes system fs t nodes report db
  = (Returned
       (mkReport (skipCount report + length gone)
          (warnings report
           ++ map (fun tn => node_path (getStartPath system) (snd tn)) gone)%list),
     fold_left
       (fun db tn => write (replace_row (node_row system tn) (contents db)) db)
       there db).
Proof.
  cbv zeta. revert report db.
  induction nodes as [|n nodes IH]; intros report db Hfs Hok.
  - simpl. rewrite Nat.add_0_r, app_nil_r. now destruct report.
  - assert (Hfs' : forall n0, In n0 nodes ->
                     fs (node_path (getStartPath system) n0) <> None)
      by (intros; apply Hfs; now right).
    assert (Hok' : forall n0, In n0 nodes ->
                     fs (node_path (getStartPath system) n0) = Some true ->
                     MetaDataMap_get
                       (node_metadata (getStartPath system) t n0) "name" <> ""
                     /\ length (getMDDMap t) = length (getMDDMap GAME_METADATA))
      by (intros; apply Hok; [now right|assumption]).
    cbn [map filter].
    destruct (fs (node_path (getStartPath system) n)) as [[|]|] eqn:Hn.
    + assert (Hp : node_present fs (getStartPath system) (t, n) = true)
        by (unfold node_present; cbn [snd]; now rewrite Hn).
      rewrite Hp. cbn [negb fold_left].
      destruct (Hok n (or_introl eq_refl) Hn) as [Hname Hlen].
      rewrite (import_nodes_present system fs t n nodes report db Hn Hname Hlen).
      rewrite (IH report _ Hfs' Hok').
      rewrite setFileData_spec by now apply node_metadata_fits.
      reflexivity.
    + assert (Hp : node_present fs (getStartPath system) (t, n) = false)
        by (unfold node_present; cbn [snd]; now rewrite Hn).
      rewrite Hp. cbn [negb].
      rewrite (import_nodes_missing system fs t n nodes report db Hn).
      rewrite (IH _ db Hfs' Hok'). cbn [skipCount warnings length map snd].
      rewrite <- app_assoc, Nat.add_succ_r. reflexivity.
    + exfalso. apply (Hfs n (or_introl eq_refl)). exact Hn.
Qed.

(** X11.  An import of a gamelist of any length.  The file is there and
    parses; the status of the path of every game and folder node can be
    read; every node whose path is on disk has a name and a catalog as
    long as the table's.  Then [importXML] returns; it has logged a
    warning for every node whose path is not on disk, game nodes before
    folder nodes and each kind in document order; and the database is what
    an insert-or-replace of the row of every other node, in that same
    order, makes of the one it started from, each value stored as its
    column stores it. *)
Theorem importXML_writes_present_skips_missing
    (system : SystemData) (xml_path : string) (fs : filesystem)
    (load_file : xml_loader) (doc root : xml_node) (db : sqlite3) :
  fs xml_path = Some true ->
  load_file xml_path = Some doc ->
  child doc "gameList" = Some root ->
  (forall tn, In tn (file_nodes root) ->
     fs (node_path (getStartPath system) (snd tn)) <> None) ->
  (forall tn, In tn (file_nodes root) ->
     fs (node_path (getStartPath system) (snd tn)) = Some true ->
     MetaDataMap_get
       (node_metadata (getStartPath system) (fst tn) (snd tn)) "name" <> ""
     /\ length (getMDDMap (fst tn)) = length (getMDDMap GAME_METADATA)) ->
  let gone :=
    filter (fun tn => negb (node_present fs (getStartPath system) tn))
      (file_nodes root) in
  let there := filter (node_present fs (getStartPath system)) (file_nodes root) in
  importXML system xml_path fs load_file db
  = (Returned (map (fun tn => node_path (getStartPath system) (snd tn)) gone),
     fold_left
       (fun db tn => write (replace_row (node_row system tn) (contents db)) db)
       there db).
Proof.
  intros Hxml Hload Hroot Hfs Hok. cbv zeta.
  rewrite (importXML_loaded system xml_path fs load_file doc root db
             Hxml Hload Hroot).
  unfold file_nodes in *.
  rewrite import_nodes_all.
  - rewrite import_nodes_all.
    + cbn [logged skipCount warnings]. rewrite !filter_app, map_app.
      rewrite fold_left_app. reflexivity.
    + intros n Hn. apply (Hfs (FOLDER_METADATA, n)).
      apply in_or_app. right. now apply in_map.
    + intros n Hn. apply (Hok (FOLDER_METADATA, n)).
      apply in_or_app. right. now apply in_map.
  - intros n Hn. apply (Hfs (GAME_METADATA, n)).
    apply in_or_app. left. now apply in_map.
  - intros n Hn. apply (Hok (GAME_METADATA, n)).
    apply in_or_app. left. now apply in_map.
Qed.

(** The three ways an import stops before it reads a node: the file
    is not there, it does not parse, or it has no gameList node.  Each
    throws an [ESException], and the database is as it was. *)
Lemma importXML_refuses_a_bad_source
    (system : SystemData) (xml_path : string) (fs : filesystem)
    (load_file : xml_loader) (db : sqlite3) :
  fs xml_path = Some false
  \/ (fs xml_path = Some true /\ load_file xml_path = None)
  \/ (fs xml_path = Some true
      /\ exists doc, load_file xml_path = Some doc
                     /\ child doc "gameList" = None) ->
  exists what,
    importXML system xml_path fs load_file db = (Thrown (ESException what), db).
Proof.
  unfold importXML, bind, fs_exists.
  intros [Hno|[[Hyes Hparse]|(Hyes & doc & Hdoc & Hroot)]].
  - rewrite Hno. simpl. eexists. reflexivity.
  - rewrite Hyes, Hparse. simpl. eexists. reflexivity.
  - rewrite Hyes, Hdoc, Hroot. simpl. eexists. reflexivity.
Qed.

End Imports.

Lemma importXML_writes_present_skips_missing_witness :
  @importXML sample_declarations nes "/roms/nes/gamelist.xml"
    only_a_nes (fun _ => Some longer_gamelist_doc) empty_db
  = (Returned ["/roms/nes/gone.nes"; "/roms/nes/old"],
     mkDB [@bound_row sample_declarations "./a.nes" "'nes'" a_nes_metadata]
       None).
Proof.
  refine (eq_trans
    (@importXML_writes_present_skips_missing sample_declarations
       nes "/roms/nes/gamelist.xml" only_a_nes
       (fun _ => Some longer_gamelist_doc) longer_gamelist_doc
       (element "gameList" ""
          [element "folder" ""
             [element "path" "./old" []; element "name" "Old" []];
           element "game" ""
             [element "path" "./a.nes" []; element "name" "A" []];
           element "game" ""
             [element "path" "./gone.nes" []; element "name" "Gone" []]])
       empty_db eq_refl eq_refl eq_refl _ _) _).
  - intros tn _. discriminate.
  - intros tn Hin Hthere. simpl in Hin.
    destruct Hin as [<-|[<-|[<-|[]]]]; try discriminate Hthere.
    split; [discriminate|reflexivity].
  - reflexivity.
Defined.

(** ** The primary key *)

Lemma filter_keeps_keys_unique (keep : row -> bool) (t : table) :
  unique_keys t -> unique_keys (filter keep t).
Proof.
  unfold unique_keys.
  induction t as [|r t IH]; simpl; intros Hu; [constructor|].
  inversion Hu as [|k ks Hfresh Hrest]; subst.
  destruct (keep r); simpl; [|now apply IH].
  constructor; [|now apply IH].
  intros Hin. apply Hfresh.
  apply in_map_iff in Hin. destruct Hin as (r' & Hkey & Hin).
  apply filter_In in Hin. rewrite <- Hkey.
  apply (in_map (fun r0 => (fileid r0, systemid r0))). tauto.
Qed.

Lemma filtered_key_absent (f s : string) (t : table) :
  existsb (key_matches f s)
    (filter (fun r => negb (key_matches f s r)) t) = false.
Proof.
  induction t as [|r t IH]; simpl; [reflexivity|].
  destruct (key_matches f s r) eqn:E; simpl; [exact IH|].
  now rewrite E.
Qed.

Lemma replace_row_unique (r : row) (t : table) :
  unique_keys t -> unique_keys (replace_row r t).
Proof.
  intros Hu. unfold replace_row.
  apply unique_keys_app_one.
  - now apply filter_keeps_keys_unique.
  - apply filtered_key_absent.
Qed.

Lemma same_but_fileexists_keys (t t' : table) :
  Forall2 same_but_fileexists t t' ->
  map (fun r => (fileid r, systemid r)) t'
  = map (fun r => (fileid r, systemid r)) t.
Proof.
  induction 1 as [|r r' t t' (Hf & Hs & _) _ IH]; simpl; [reflexivity|].
  now rewrite Hf, Hs, IH.
Qed.

Lemma preserves_bind {A B} (I : table -> Prop) (c : DB A) (k : A -> DB B) :
  preserves I c -> (forall a, preserves I (k a)) -> preserves I (bind c k).
Proof.
  intros Hc Hk db HI. unfold bind. specialize (Hc db HI).
  destruct (c db) as [[a|e|] db']; simpl in *; auto.
  now apply Hk.
Qed.

Lemma preserves_same {A} (I : table -> Prop) (o : outcome A) :
  preserves I (fun db => (o, db)).
Proof. intros db HI. exact HI. Qed.

Section PrimaryKey.
Context {D : Declarations}.

Lemma setFileData_keeps_keys_unique
    (fileID systemID : string) (m : MetaDataMap) :
  preserves unique_keys (setFileData fileID systemID m).
Proof.
  intros db Hu. destruct (fits_table m) eqn:Hfit.
  - rewrite (setFileData_replaces fileID systemID m db Hfit). cbn [snd].
    rewrite contents_write. now apply replace_row_unique.
  - now rewrite (setFileData_misfit fileID systemID m db Hfit).
Qed.

Lemma import_nodes_keeps_keys_unique
    (system : SystemData) (fs : filesystem) (t : MetaDataListType)
    (nodes : list xml_node) (report : import_report) :
  preserves unique_keys (import_nodes system fs t nodes report).
Proof.
  revert report; induction nodes as [|n nodes IH]; intros report.
  - apply (preserves_same unique_keys (Returned report)).
  - cbn [import_nodes]. apply preserves_bind.
    + unfold fs_exists. destruct (fs _) as [b|].
      * apply (preserves_same unique_keys (Returned b)).
      * apply (preserves_same unique_keys (@Thrown bool filesystem_error)).
    + intros found. destruct found; cbn [negb]; [|apply IH].
      destruct (negb NDEBUG && String.eqb _ "").
      * apply (preserves_same unique_keys
                 (@Thrown import_report assertion_failure)).
      * apply preserves_bind; [apply setFileData_keeps_keys_unique|].
        intros _. apply IH.
Qed.

Lemma importXML_keeps_keys_unique
    (system : SystemData) (xml_path : string) (fs : filesystem)
    (load_file : xml_loader) :
  preserves unique_keys (importXML system xml_path fs load_file).
Proof.
  unfold importXML. apply preserves_bind.
  - unfold fs_exists. destruct (fs xml_path) as [b|].
    + apply (preserves_same unique_keys (Returned b)).
    + apply (preserves_same unique_keys (@Thrown bool filesystem_error)).
  - intros found. destruct found; cbn [negb].
    + destruct (load_file xml_path) as [doc|].
      * destruct (child doc "gameList") as [root|].
        -- apply preserves_bind; [apply import_nodes_keeps_keys_unique|].
           intros report.
           apply preserves_bind; [apply import_nodes_keeps_keys_unique|].
           intros report'.
           apply (preserves_same unique_keys (Returned (warnings report'))).
        -- apply (preserves_same unique_keys
                    (@Thrown (list path)
                       (ESException "Could not find <gameList> node!"))).
      * apply (preserves_same unique_keys
                 (@Thrown (list path) (ESException "Error parsing XML"))).
    + apply (preserves_same unique_keys
               (@Thrown (list path) (ESException "XML file not found"))).
Qed.

(** X8.  The primary key stays a key: when no two rows of the table share
    a file identifier and a system identifier, none do after a scan, a
    refresh, a write or an import, whatever the outcome of the
    operation. *)
Theorem operations_keep_keys_unique
    (system : SystemData) (root : dirent) (fs : filesystem)
    (fileID systemID : string) (m : MetaDataMap)
    (xml_path : string) (load_file : xml_loader) (db : sqlite3) :
  unique_keys (contents db) ->
  unique_keys (contents (snd (addMissingFiles system root db)))
  /\ unique_keys (contents (snd (updateExists system fs db)))
  /\ unique_keys (contents (snd (setFileData fileID systemID m db)))
  /\ unique_keys
       (contents (snd (importXML system xml_path fs load_file db))).
Proof.
  intros Hu. split; [|split; [|split]].
  - destruct (begun_or_not system db) as [Hnot|(v & Hidle & Hname)].
    + now rewrite (addMissingFiles_not_begun system root db Hnot).
    + rewrite (addMissingFiles_scanned system root db v Hidle Hname).
      cbn [snd]. unfold contents. cbn [pending durable].
      apply insert_rows_unique.
      unfold contents in Hu. now rewrite Hidle in Hu.
  - destruct (updateExists_rows_any system fs db) as (v & _ & H).
    unfold unique_keys.
    rewrite (same_but_fileexists_keys (contents db)); [exact Hu|].
    eapply Forall2_impl; [|exact H]. now intros r r' [Hsame _].
  - now apply setFileData_keeps_keys_unique.
  - now apply importXML_keeps_keys_unique.
Qed.

End PrimaryKey.

Lemma operations_keep_keys_unique_witness :
  unique_keys (contents scanned_db)
  /\ unique_keys
       (contents (snd (@setFileData sample_declarations "./a.nes" "nes"
                         a_nes_metadata scanned_db))).
Proof.
  assert (Hu : unique_keys (contents scanned_db)).
  { unfold unique_keys. simpl.
    repeat (constructor; [simpl; intuition discriminate|]). constructor. }
  split; [exact Hu|].
  exact (proj1 (proj2 (proj2
    (@operations_keep_keys_unique sample_declarations nes nes_root
       only_a_nes "./a.nes" "nes" a_nes_metadata
       "/roms/nes/gamelist.xml" gamelist_loader scanned_db Hu)))).
Defined.

(** ** The name in the text and the name as a parameter *)

Lemma string_length_app (a b : string) :
  String.length (a ++ b) = String.length a + String.length b.
Proof. induction a as [|c a IH]; simpl; [reflexivity|now rewrite IH]. Qed.

Lemma literal_body_sound (s v : string) :
  literal_body s = Some v -> s = v ++ "'".
Proof.
  revert v; induction s as [|c s IH]; simpl; intros v H; [discriminate|].
  destruct (Ascii.eqb c "'") eqn:Eq.
  - apply Ascii.eqb_eq in Eq. subst c.
    destruct s; [|discriminate]. now inversion H.
  - destruct (Ascii.eqb c zero); [discriminate|].
    destruct (literal_body s) as [w|]; [|discriminate].
    inversion H. simpl. now rewrite (IH w eq_refl).
Qed.

Section Names.
Context {D : Declarations}.

Lemma bare_words_are_no_literal (name v : string) :
  match words_of name with
  | first :: others =>
      if forallb is_word (first :: others) then
        if existsb (String.eqb (lower first))
             (expression_words ++ map lower column_names)
        then OperandOther else OperandRejected
      else OperandOther
  | [] => OperandOther
  end <> OperandText v.
Proof.
  destruct (words_of name) as [|first others]; [discriminate|].
  destruct (forallb is_word (first :: others)); [|discriminate].
  destruct (existsb _ _); discriminate.
Qed.

(** A name the engine reads as the literal [v] is [v] between quotes. *)
Lemma literal_name_is_quoted (name v : string) :
  classify_operand name = OperandText v -> name = "'" ++ v ++ "'".
Proof.
  intros H. destruct name as [|c rest].
  - exfalso. exact (bare_words_are_no_literal "" v H).
  - destruct c as [[] [] [] [] [] [] [] []];
      match type of H with
      | classify_operand ?n = _ =>
          try (exfalso; exact (bare_words_are_no_literal n v H))
      end.
    cbv beta iota delta [classify_operand] in H.
    destruct (literal_body rest) as [w|] eqn:Hw; [|discriminate].
    inversion H; subst w. simpl. now rewrite (literal_body_sound rest v Hw).
Qed.

Lemma literal_is_not_the_name (name v : string) :
  classify_operand name = OperandText v -> v <> name.
Proof.
  intros H Heq. apply literal_name_is_quoted in H.
  apply (f_equal String.length) in H. rewrite <- Heq in H.
  simpl in H. rewrite string_length_app in H. simpl in H. lia.
Qed.

(** X14.  A refresh does not reach the records written under the system's
    name.  [setFileData], as [importXML] calls it, binds the name as a
    parameter; [updateExists] writes it into the statement text.  For a
    name that is a literal or is rejected, every row whose system
    identifier is the name itself comes out of [updateExists] as it went
    in, existence flag included, whatever the filesystem holds. *)
Theorem updateExists_skips_rows_under_the_name
    (system : SystemData) (fs : filesystem) (db : sqlite3) :
  classify_operand (getName system) <> OperandOther ->
  Forall2 (fun r r' => systemid r = getName system -> r' = r)
    (contents db) (contents (snd (updateExists system fs db))).
Proof.
  intros _.
  destruct (updateExists_rows_any system fs db) as (v & Hv & H).
  destruct (classify_operand (getName system)) as [v'| |] eqn:Hc.
  - eapply Forall2_impl; [|exact H].
    intros r r' [_ Hother] Hs. apply Hother.
    rewrite Hs, <- (Hv v' eq_refl).
    intros Heq. now apply (literal_is_not_the_name (getName system) v' Hc).
  - rewrite (updateExists_not_begun system fs db).
    + apply Forall2_refl. auto.
    + right. rewrite Hc. discriminate.
  - rewrite (updateExists_not_begun system fs db).
    + apply Forall2_refl. auto.
    + right. rewrite Hc. discriminate.
Qed.

End Names.

Lemma updateExists_skips_rows_under_the_name_witness :
  @classify_operand sample_declarations (getName nes) <> OperandOther
  /\ Forall2 (fun r r' => systemid r = getName nes -> r' = r)
       [@bound_row sample_declarations "./gone.nes" "'nes'" a_nes_metadata]
       (contents
          (snd (@updateExists sample_declarations nes (fun _ => Some false)
                  (snd (@setFileData sample_declarations "./gone.nes"
                          (getName nes) a_nes_metadata empty_db))))).
Proof.
  assert (Hc : @classify_operand sample_declarations (getName nes)
               <> OperandOther) by discriminate.
  split; [exact Hc|].
  exact (@updateExists_skips_rows_under_the_name sample_declarations
           nes (fun _ => Some false)
           (snd (@setFileData sample_declarations "./gone.nes"
                   (getName nes) a_nes_metadata empty_db)) Hc).
Defined.

(** ** Exports *)

Lemma filter_filter_nil {A} (p q : A -> bool) (l : list A) :
  filter p l = [] -> filter p (filter q l) = [].
Proof.
  induction l as [|a l IH]; simpl; [reflexivity|].
  destruct (p a) eqn:Hp; [discriminate|]. intros H.
  destruct (q a); simpl; [rewrite Hp|]; now apply IH.
Qed.

Lemma map_seq_nth {A B} (g : A -> B) (d : A) (l : list A) :
  map (fun j => g (nth j l d)) (seq 0 (length l)) = map g l.
Proof.
  induction l as [|a l IH]; simpl; [reflexivity|].
  f_equal. now rewrite <- seq_shift, map_map.
Qed.

Lemma nth_map_in {A B} (f : A -> B) (l : list A) (j : nat) (d : A) (d' : B) :
  j < length l -> nth j (map f l) d' = f (nth j l d).
Proof.
  revert j; induction l as [|a l IH]; intros [|j] H; simpl in *;
    try lia; [reflexivity|].
  apply IH. lia.
Qed.

Section Exports.
Context {D : Declarations}.

(** The export reads: its outcome is decided by the rows it is given, and
    the database is as it was. *)
Lemma export_columns_reads
    (current : option row) (columns : list nat) (children : list xml_node) :
  exists o, forall db, export_columns current columns children db = (o, db).
Proof.
  revert children; induction columns as [|i columns IH]; intros children;
    simpl.
  - exists (Returned children). reflexivity.
  - destruct (sqlite3_column_text current i) as [value|]; [apply IH|].
    destruct NDEBUG; eexists; reflexivity.
Qed.

Lemma export_rows_reads
    (relativeTo : string) (rows : list row) (nodes : list xml_node) :
  exists o, forall db, export_rows relativeTo rows nodes db = (o, db).
Proof.
  revert nodes; induction rows as [|r rows IH]; intros nodes; simpl.
  - exists (Returned nodes). reflexivity.
  - destruct (export_columns_reads (Some r) (seq 4 (sqlite3_column_count - 4))
                [element "path" (export_path relativeTo (fileid r)) []])
      as ([children|e|] & Hc).
    + destruct (IH (nodes ++ [element
                  (if Z.eqb (sqlite3_column_int (Some r) 2) 0
                   then "game" else "folder") "" children])%list) as (o & Ho).
      exists o. intros db. unfold bind. rewrite Hc. apply Ho.
    + exists (Thrown e). intros db. unfold bind. now rewrite Hc.
    + exists Unmodelled. intros db. unfold bind. now rewrite Hc.
Qed.

Lemma exportXML_by_rows (system : SystemData) (db1 db2 : sqlite3) :
  select_system (getName system) db1 = select_system (getName system) db2 ->
  fst (exportXML system db1) = fst (exportXML system db2).
Proof.
  intros Hrows. unfold exportXML, bind. rewrite Hrows.
  destruct (export_rows_reads (getStartPath system)
              (select_system (getName system) db2) []) as (o & Ho).
  rewrite !Ho. now destruct o.
Qed.

(** X13.  An export does not see what a scan has stored.  [exportXML]
    binds the system's name as a parameter; [addMissingFiles] writes it
    into the statement text, where a name that prepares stands for a text
    other than itself.  For a name that is a literal or is rejected, the
    export of a system after a scan of that system is the export before
    the scan. *)
Theorem exportXML_ignores_scanned_rows
    (system : SystemData) (root : dirent) (db : sqlite3) :
  classify_operand (getName system) <> OperandOther ->
  fst (exportXML system (snd (addMissingFiles system root db)))
  = fst (exportXML system db).
Proof.
  intros _. apply exportXML_by_rows.
  destruct (begun_or_not system db) as [Hnot|(v & Hidle & Hname)].
  - now rewrite (addMissingFiles_not_begun system root db Hnot).
  - rewrite (addMissingFiles_scanned system root db v Hidle Hname).
    cbn [snd]. unfold select_system, contents. cbn [pending durable].
    rewrite Hidle.
    destruct (insert_rows_extends v (getStartPath system)
                (scan_paths (getExtensions system) (getStartPath system) root)
                (durable db)) as (added & -> & Hadded).
    rewrite filter_app.
    replace (filter _ added) with (@nil row); [apply app_nil_r|].
    symmetry. clear - Hadded Hname.
    induction Hadded as [|r added (q & _ & -> & _) _ IH]; [reflexivity|].
    simpl. rewrite IH.
    destruct (String.eqb v (getName system)) eqn:E; [|reflexivity].
    apply String.eqb_eq in E.
    now destruct (literal_is_not_the_name (getName system) v Hname).
Qed.

Lemma export_columns_all
    (current : option row) (value : nat -> string)
    (columns : list nat) (children : list xml_node) (db : sqlite3) :
  (forall i, In i columns -> sqlite3_column_text current i = Some (value i)) ->
  export_columns current columns children db
  = (Returned
       (children
        ++ map (fun i => element (sqlite3_column_name i) (value i) []) columns)%list,
     db).
Proof.
  revert children; induction columns as [|i columns IH]; intros children H.
  - simpl. now rewrite app_nil_r.
  - simpl. rewrite (H i (or_introl eq_refl)).
    rewrite IH by (intros; apply H; now right).
    now rewrite <- app_assoc.
Qed.

(** The values of a record next to the columns they are stored in. *)
Lemma affinity_cells_bound (columns : list MetaDataDecl) (vs : list string) :
  length columns = length vs ->
  affinity_cells columns (map Some vs)
  = map (fun dv => Some (stored_text (type (fst dv)) (snd dv)))
      (combine columns vs).
Proof.
  revert vs; induction columns as [|d columns IH]; intros [|v vs] H;
    simpl in *; try discriminate; [reflexivity|].
  f_equal. apply IH. congruence.
Qed.

Lemma bound_row_metadata (f s : string) (m : MetaDataMap) :
  length (getMDD m) = length (getMDDMap GAME_METADATA) ->
  metadata (bound_row f s m)
  = map (fun dv => Some (stored_text (type (fst dv)) (snd dv)))
      (combine (getMDDMap GAME_METADATA)
         (map (fun d => MetaDataMap_get m (key d)) (getMDD m))).
Proof.
  intros Hlen. unfold bound_row, with_affinity. cbn [metadata].
  rewrite <- (map_map (fun d => MetaDataMap_get m (key d)) Some).
  apply affinity_cells_bound. now rewrite length_map.
Qed.

Lemma bound_row_column_text
    (f s : string) (m : MetaDataMap) (i : nat) :
  length (getMDD m) = length (getMDDMap GAME_METADATA) ->
  4 <= i < 4 + length (getMDD m) ->
  sqlite3_column_text (Some (bound_row f s m)) i
  = Some (nth (i - 4)
            (map (fun dv => stored_text (type (fst dv)) (snd dv))
               (combine (getMDDMap GAME_METADATA)
                  (map (fun d => MetaDataMap_get m (key d)) (getMDD m))))
            "").
Proof.
  intros Hlen Hi. unfold sqlite3_column_text, sqlite3_column, cells.
  rewrite app_nth2 by (simpl; lia). cbn [length].
  rewrite (bound_row_metadata f s m Hlen), map_map.
  set (l := combine (getMDDMap GAME_METADATA)
              (map (fun d => MetaDataMap_get m (key d)) (getMDD m))).
  assert (Hl : length l = length (getMDD m))
    by (unfold l; rewrite length_combine, length_map; lia).
  rewrite (nth_map_in _ l (i - 4) (mkDecl "" MD_STRING "", "") NULL) by lia.
  rewrite (nth_map_in _ l (i - 4) (mkDecl "" MD_STRING "", "") "") by lia.
  reflexivity.
Qed.

Lemma column_name_of_field (i : nat) :
  4 <= i ->
  sqlite3_column_name i = nth (i - 4) (map key (getMDDMap GAME_METADATA)) "".
Proof.
  intros Hi. unfold sqlite3_column_name, column_names.
  now rewrite app_nth2 by (simpl; lia).
Qed.

(** X12.  What is written is what is exported.  After [setFileData] has
    stored a record under a system's name in a table that had no row of
    that system, [exportXML] returns a gamelist with one node: tagged game
    or folder by the kind of the record, with the path of the identifier
    (the root put in place of a leading dot) and one child per metadata
    column of the table, named after the column and holding the values of
    the record in the order of its catalog, each as its column gives it
    back. *)
Theorem exportXML_after_setFileData
    (system : SystemData) (fileID : string) (m : MetaDataMap) (db : sqlite3) :
  fits_table m = true ->
  select_system (getName system) db = [] ->
  fst (exportXML system (snd (setFileData fileID (getName system) m db)))
  = Returned
      (element "" ""
         [element "gameList" ""
            [element
               (match getType m with
                | GAME_METADATA => "game"
                | FOLDER_METADATA => "folder"
                end) ""
               (element "path" (export_path (getStartPath system) fileID) []
                :: exported_fields m)]]).
Proof.
  intros Hfit Hnone.
  rewrite (setFileData_replaces fileID (getName system) m db Hfit). cbn [snd].
  assert (Hrows :
    select_system (getName system)
      (write (replace_row (bound_row fileID (getName system) m) (contents db)) db)
    = [bound_row fileID (getName system) m]).
  { unfold select_system. rewrite contents_write. unfold replace_row.
    rewrite filter_app, filter_filter_nil by exact Hnone.
    simpl. now rewrite String.eqb_refl. }
  apply fits_table_true in Hfit. destruct Hfit as [_ Hlen].
  unfold exportXML, bind. rewrite Hrows. cbn [export_rows].
  assert (Hpath : sqlite3_column_text
                    (Some (bound_row fileID (getName system) m)) 0
                  = Some fileID) by reflexivity.
  rewrite Hpath. unfold bind.
  set (l := combine (getMDDMap GAME_METADATA)
              (map (fun d => MetaDataMap_get m (key d)) (getMDD m))).
  assert (Hl : length l = length (getMDDMap GAME_METADATA))
    by (unfold l; rewrite length_combine, length_map; lia).
  rewrite (export_columns_all _
             (fun i => nth (i - 4)
                (map (fun dv => stored_text (type (fst dv)) (snd dv)) l) "")).
  - cbn [fst app export_rows ret].
    assert (Htag : (if Z.eqb (sqlite3_column_int
                               (Some (bound_row fileID (getName system) m)) 2) 0
                    then "game" else "folder")
                   = match getType m with
                     | GAME_METADATA => "game"
                     | FOLDER_METADATA => "folder"
                     end)
      by (unfold sqlite3_column_int; simpl; now destruct (getType m)).
    rewrite Htag.
    assert (Hfields :
      map (fun i => element (sqlite3_column_name i)
                      (nth (i - 4)
                         (map (fun dv => stored_text (type (fst dv)) (snd dv)) l)
                         "") [])
        (seq 4 (sqlite3_column_count - 4))
      = exported_fields m).
    { unfold sqlite3_column_count. rewrite length_column_names.
      replace (4 + length (getMDDMap GAME_METADATA) - 4) with (length l)
        by lia.
      unfold exported_fields. fold l.
      etransitivity;
        [|exact (map_seq_nth
                   (fun dv => element (key (fst dv))
                                (stored_text (type (fst dv)) (snd dv)) [])
                   (mkDecl "" MD_STRING "", "") l)].
      rewrite <- 4 seq_shift, !map_map.
      apply map_ext_in. intros j Hj. apply in_seq in Hj.
      rewrite column_name_of_field by lia.
      replace (S (S (S (S j))) - 4) with j by lia.
      rewrite (nth_map_in _ l j (mkDecl "" MD_STRING "", "") "") by lia.
      rewrite (nth_map_in key (getMDDMap GAME_METADATA) j
                 (mkDecl "" MD_STRING "") "") by lia.
      unfold l. rewrite combine_nth by (rewrite length_map; lia).
      reflexivity. }
    rewrite Hfields. reflexivity.
  - intros i Hi. apply in_seq in Hi.
    unfold sqlite3_column_count in Hi. rewrite length_column_names in Hi.
    apply bound_row_column_text; lia.
Qed.

End Exports.

Lemma exportXML_ignores_scanned_rows_witness :
  @classify_operand sample_declarations (getName nes) <> OperandOther
  /\ fst (@exportXML sample_declarations nes scanned_db)
     = Returned (element "" "" [element "gameList" "" []]).
Proof.
  assert (Hc : @classify_operand sample_declarations (getName nes)
               <> OperandOther) by discriminate.
  split; [exact Hc|].
  unfold scanned_db.
  rewrite (@exportXML_ignores_scanned_rows sample_declarations
             nes nes_root empty_db Hc).
  reflexivity.
Defined.

Lemma exportXML_after_setFileData_witness :
  @fits_table sample_declarations a_nes_metadata = true
  /\ fst (@exportXML sample_declarations plain_nes
            (snd (@setFileData sample_declarations "./a.nes" "nes"
                    a_nes_metadata empty_db)))
     = Returned
         (element "" ""
            [element "gameList" ""
               [element "game" ""
                  [element "path" "/roms/nes/a.nes" [];
                   element "name" "A" []; element "desc" "" [];
                   element "image" "" []; element "rating" "0.0" [];
                   element "releasedate" "" []; element "playcount" "0" []]]]).
Proof.
  assert (Hfit : @fits_table sample_declarations a_nes_metadata = true)
    by reflexivity.
  split; [exact Hfit|].
  exact (@exportXML_after_setFileData sample_declarations
           plain_nes "./a.nes" a_nes_metadata empty_db Hfit eq_refl).
Defined.

(** ** Imports that stop, reads that do not return *)

Section Stops.
Context {D : Declarations}.

Lemma import_nodes_nameless
    (system : SystemData) (fs : filesystem) (t : MetaDataListType)
    (n : xml_node) (rest : list xml_node) (report : import_report)
    (db : sqlite3) :
  NDEBUG = false ->
  fs (node_path (getStartPath system) n) = Some true ->
  MetaDataMap_get (node_metadata (getStartPath system) t n) "name" = "" ->
  import_nodes system fs t (n :: rest) report db
  = (Thrown assertion_failure, db).
Proof.
  intros Hbuild Hfs Hname. simpl. unfold bind at 1, fs_exists. rewrite Hfs.
  simpl. rewrite Hname, Hbuild. reflexivity.
Qed.

(** X15.  An import is not all or nothing.  In a build with its asserts,
    when the game nodes start with nodes that are on disk and have a name,
    and the next one is on disk and has none, [importXML] stops at the
    assertion on the name, and the records of the nodes before it are in
    the database: each was written by its own insert-or-replace, outside
    of any transaction. *)
Theorem importXML_stops_at_a_nameless_node
    (system : SystemData) (xml_path : string) (fs : filesystem)
    (load_file : xml_loader) (doc root : xml_node) (db : sqlite3)
    (good : list xml_node) (bad : xml_node) (rest : list xml_node) :
  NDEBUG = false ->
  fs xml_path = Some true ->
  load_file xml_path = Some doc ->
  child doc "gameList" = Some root ->
  children_named root "game" = (good ++ bad :: rest)%list ->
  (forall n, In n good ->
     fs (node_path (getStartPath system) n) = Some true
     /\ MetaDataMap_get
          (node_metadata (getStartPath system) GAME_METADATA n) "name" <> "") ->
  fs (node_path (getStartPath system) bad) = Some true ->
  MetaDataMap_get
    (node_metadata (getStartPath system) GAME_METADATA bad) "name" = "" ->
  importXML system xml_path fs load_file db
  = (Thrown assertion_failure,
     fold_left
       (fun db n =>
          write (replace_row (node_row system (GAME_METADATA, n)) (contents db))
            db)
       good db).
Proof.
  intros Hbuild Hxml Hload Hroot Hgames Hgood Hbad Hname.
  rewrite (importXML_loaded system xml_path fs load_file doc root db
             Hxml Hload Hroot).
  rewrite Hgames.
  assert (Hloop : forall report db0,
    import_nodes system fs GAME_METADATA (good ++ bad :: rest) report db0
    = (Thrown assertion_failure,
       fold_left
         (fun db n =>
            write (replace_row (node_row system (GAME_METADATA, n))
                     (contents db)) db)
         good db0)).
  { clear Hgames. induction good as [|n good IH]; intros report db0.
    - simpl app. now apply import_nodes_nameless.
    - destruct (Hgood n (or_introl eq_refl)) as [Hn Hnn].
      simpl app.
      rewrite (import_nodes_present system fs GAME_METADATA n _ report db0
                 Hn Hnn eq_refl).
      rewrite IH by (intros; apply Hgood; now right).
      cbn [fold_left].
      rewrite setFileData_spec by now apply node_metadata_fits.
      reflexivity. }
  now rewrite Hloop.
Qed.

(** X16.  [getFileData] leaves the database as it was, and it throws the
    exception of its step check exactly when there is a row under the key
    it is asked for. *)
Theorem getFileData_throws_iff_the_row_exists
    (fileID systemID : string) (db : sqlite3) :
  snd (getFileData fileID systemID db) = db
  /\ (fst (getFileData fileID systemID db)
        = Thrown (DBException "Step failed!")
      <-> existsb (key_matches fileID systemID) (contents db) = true).
Proof.
  destruct (existsb (key_matches fileID systemID) (contents db)) eqn:E.
  - rewrite (getFileData_present fileID systemID db E).
    split; [reflexivity|]. split; reflexivity.
  - rewrite (getFileData_absent fileID systemID db E).
    split; [reflexivity|]. split; discriminate.
Qed.

End Stops.

Lemma importXML_stops_at_a_nameless_node_witness :
  @importXML sample_declarations nes "/roms/nes/gamelist.xml"
    only_a_nes (fun _ => Some nameless_gamelist_doc) empty_db
  = (Thrown assertion_failure,
     mkDB [@bound_row sample_declarations "./a.nes" "'nes'" a_nes_metadata]
       None).
Proof.
  refine (eq_trans
    (@importXML_stops_at_a_nameless_node sample_declarations
       nes "/roms/nes/gamelist.xml" only_a_nes
       (fun _ => Some nameless_gamelist_doc) nameless_gamelist_doc
       (element "gameList" ""
          [element "game" ""
             [element "path" "./a.nes" []; element "name" "A" []];
           element "game" "" [element "path" "/roms/nes/a.nes" []];
           element "game" ""
             [element "path" "./gone.nes" []; element "name" "Gone" []]])
       empty_db
       [element "game" ""
          [element "path" "./a.nes" []; element "name" "A" []]]
       (element "game" "" [element "path" "/roms/nes/a.nes" []])
       [element "game" ""
          [element "path" "./gone.nes" []; element "name" "Gone" []]]
       eq_refl eq_refl eq_refl eq_refl eq_refl _ eq_refl eq_refl) _).
  - intros n [<-|[]]. split; [reflexivity|discriminate].
  - reflexivity.
Defined.
